(** * surefire-to-ctrf: the TestNG and JUnit report converters

    A shallow embedding of the two [convert.ts] modules of the
    repository (the TestNG converter and the JUnit converter) and of
    the properties their specification states about them.

    Conventions of the embedding.
    - The tree the converters walk is the value [xml2js] hands them
      (default options): see [node] below.
    - A JavaScript number is an IEEE-754 binary64 value: [number].
      Finite values are kept as exact rationals; the rounding every
      arithmetic step performs is [to_double].  The sign of zero is not
      tracked ([JSON.stringify] prints both zeros as [0], and both are
      falsy).
    - A [string] holds the UTF-8 form of a JavaScript string.
      [toLowerCase], which follows the case tables of Unicode, is a
      parameter, as is the [Date] constructor.
      [parseInt] and [parseFloat] round the exact decimal value, however
      many digits it has (as V8 does; ECMA-262 allows an approximation
      beyond 20 significant digits).
    - A thrown exception is a value of [exn]; code that may throw lives
      in the [completion] monad.  A promise is its [outcome].
    - [console.*] output is not part of the model.
    - [fs.ensureDir] and [fs.outputJson] are parameters that say, for a
      path, and for the report to write, with which error the call
      rejects, if it does. *)

From stdpp Require Import base option list strings gmap.
From Stdlib Require Import Ascii String ZArith QArith Qround Qabs Qcanon Lia Lqa.

Local Open Scope Z_scope.

(** ** JavaScript numbers *)

Inductive number : Type :=
| NaN
| Infinity (negative : bool)
| Num (q : Q).

(** Nearest integer to [a / d] for [0 <= a] and [0 < d], ties to even. *)
Definition div_nearest_even (a d : Z) : Z :=
  let k := a / d in
  match 2 * (a mod d) ?= d with
  | Lt => k
  | Gt => k + 1
  | Eq => if Z.even k then k else k + 1
  end.

(** The Number value for a mathematical value (ECMA-262, 6.1.6.1):
    round to nearest binary64, ties to even; 53-bit significand,
    least exponent -1074, overflow to infinity from 2^1024. *)
Definition to_double (q : Q) : number :=
  let n := Qnum q in
  let d := Z.pos (Qden q) in
  if n =? 0 then Num 0 else
  let a := Z.abs n in
  let e0 := Z.log2 a - Z.log2 d - 52 in
  let below :=
    if 0 <=? e0 then a <? 2 ^ 52 * (d * 2 ^ e0)
    else a * 2 ^ (- e0) <? 2 ^ 52 * d in
  let e := Z.max (if below then e0 - 1 else e0) (-1074) in
  let m :=
    if 0 <=? e then div_nearest_even a (d * 2 ^ e)
    else div_nearest_even (a * 2 ^ (- e)) d in
  if (0 <=? e) && (2 ^ 1024 <=? m * 2 ^ e) then Infinity (n <? 0)
  else
    let v :=
      if 0 <=? e then inject_Z (m * 2 ^ e)
      else Qred (m # Z.to_pos (2 ^ (- e))) in
    Num (if n <? 0 then Qopp v else v).

(** [x * y] *)
Definition num_mul (x y : number) : number :=
  match x, y with
  | NaN, _ | _, NaN => NaN
  | Num a, Num b => to_double (a * b)
  | Infinity s, Infinity t => Infinity (xorb s t)
  | Infinity s, Num b | Num b, Infinity s =>
      if Qeq_bool b 0 then NaN
      else Infinity (xorb s (Qnum b <? 0))
  end.

(** [Math.round]: the integral Number closest to [x], the one closer
    to +infinity when two are equally close. *)
Definition Math_round (x : number) : number :=
  match x with
  | Num q => Num (inject_Z (Qfloor (q + (1 # 2))))
  | _ => x
  end.

(** [ToBoolean] on a number: [NaN] and zero are falsy. *)
Definition num_truthy (x : number) : bool :=
  match x with
  | NaN => false
  | Infinity _ => true
  | Num q => negb (Qeq_bool q 0)
  end.

(** [x || 0] *)
Definition num_or_zero (x : number) : number :=
  if num_truthy x then x else Num 0.

(** ** Strings *)

Definition is_digit (c : ascii) : bool :=
  (48 <=? nat_of_ascii c)%nat && (nat_of_ascii c <=? 57)%nat.

Definition digit_value (c : ascii) : Z := Z.of_nat (nat_of_ascii c) - 48.

(** StrWhiteSpaceChar, one-byte part: TAB, LF, VT, FF, CR, SP. *)
Definition is_white (c : ascii) : bool :=
  let n := nat_of_ascii c in
  ((9 <=? n)%nat && (n <=? 13)%nat) || (n =? 32)%nat.

(** StrWhiteSpaceChar, two-byte part: U+00A0. *)
Definition is_white2 (c d : ascii) : bool :=
  (nat_of_ascii c =? 194)%nat && (nat_of_ascii d =? 160)%nat.

(** StrWhiteSpaceChar, three-byte part: U+1680, U+2000 to U+200A,
    U+2028, U+2029, U+202F, U+205F, U+3000 and U+FEFF. *)
Definition is_white3 (c d e : ascii) : bool :=
  let '(c, d, e) := (nat_of_ascii c, nat_of_ascii d, nat_of_ascii e) in
  ((c =? 225) && (d =? 154) && (e =? 128))%nat
  || ((c =? 226) && (d =? 128)
      && (((128 <=? e) && (e <=? 138)) || (e =? 168) || (e =? 169) || (e =? 175)))%nat
  || ((c =? 226) && (d =? 129) && (e =? 159))%nat
  || ((c =? 227) && (d =? 128) && (e =? 128))%nat
  || ((c =? 239) && (d =? 187) && (e =? 191))%nat.

(** The string without the white space at its head. *)
Fixpoint skip_white (s : string) : string :=
  match s with
  | String c s1 =>
      if is_white c then skip_white s1
      else
        match s1 with
        | String d s2 =>
            if is_white2 c d then skip_white s2
            else
              match s2 with
              | String e s3 => if is_white3 c d e then skip_white s3 else s
              | EmptyString => s
              end
        | EmptyString => s
        end
  | EmptyString => s
  end.

(** Reads the longest run of decimal digits at the head of [s]:
    the value read (continuing [acc]), the number of digits, the rest. *)
Fixpoint read_digits (acc : Z) (n : nat) (s : string) : Z * nat * string :=
  match s with
  | String c s' =>
      if is_digit c then read_digits (10 * acc + digit_value c) (S n) s'
      else (acc, n, s)
  | EmptyString => (acc, n, s)
  end.

(** An optional sign: whether it is a minus, and the rest. *)
Definition read_sign (s : string) : bool * string :=
  match s with
  | String "-" s' => (true, s')
  | String "+" s' => (false, s')
  | _ => (false, s)
  end.

(** [parseInt(arg, 10)]; [None] is [undefined], whose string form
    has no digit. *)
Definition parseInt (arg : option string) : number :=
  match arg with
  | None => NaN
  | Some s =>
      let '(neg, s1) := read_sign (skip_white s) in
      let '(v, n, _) := read_digits 0 0 s1 in
      match n with
      | O => NaN
      | S _ => to_double (inject_Z (if neg then - v else v))
      end
  end.

(** An exponent part [e[+-]digits] at the head of [s], 0 when there
    is none (an [e] not followed by digits is not part of the number). *)
Definition read_exponent (s : string) : Z :=
  match s with
  | String c s' =>
      if (Ascii.eqb c "e" || Ascii.eqb c "E")%bool then
        let '(neg, s1) := read_sign s' in
        let '(v, n, _) := read_digits 0 0 s1 in
        match n with
        | O => 0
        | S _ => if neg then - v else v
        end
      else 0
  | EmptyString => 0
  end.

(** A fraction part [.digits] at the head of [s], continuing the value
    [acc] of the integer part: the value, the number of fraction digits,
    the rest. *)
Definition read_fraction (acc : Z) (s : string) : Z * nat * string :=
  match s with
  | String c s' => if Ascii.eqb c "." then read_digits acc 0 s' else (acc, O, s)
  | EmptyString => (acc, O, s)
  end.

(** [parseFloat(arg)]: the longest prefix of the trimmed string that
    is a StrDecimalLiteral, [NaN] when there is none. *)
Definition parseFloat (arg : option string) : number :=
  match arg with
  | None => NaN
  | Some s =>
      let '(neg, s1) := read_sign (skip_white s) in
      if String.prefix "Infinity" s1 then Infinity neg
      else
        let '(vi, ni, s2) := read_digits 0 0 s1 in
        let '(vf, nf, s3) := read_fraction vi s2 in
        match (ni + nf)%nat with
        | O => NaN
        | S _ =>
            let ex := read_exponent s3 - Z.of_nat nf in
            let mant := if neg then - vf else vf in
            to_double
              (if 0 <=? ex then inject_Z (mant * 10 ^ ex)
               else mant # Z.to_pos (10 ^ (- ex)))
        end
  end.

(** What [s.toLowerCase()] is on a string of ASCII characters: the
    stand-in for the engine's function in the examples. *)
Definition lower_ascii (c : ascii) : ascii :=
  let n := nat_of_ascii c in
  if ((65 <=? n)%nat && (n <=? 90)%nat)%bool then ascii_of_nat (n + 32) else c.

Fixpoint toLowerCase_ascii (s : string) : string :=
  match s with
  | String c s' => String (lower_ascii c) (toLowerCase_ascii s')
  | EmptyString => EmptyString
  end.

(** [s.split(sep)] for a one-character separator: never empty. *)
Fixpoint split (sep : ascii) (s : string) : list string :=
  match s with
  | EmptyString => [EmptyString]
  | String c s' =>
      if Ascii.eqb c sep then EmptyString :: split sep s'
      else
        match split sep s' with
        | p :: ps => String c p :: ps
        | [] => [String c EmptyString]
        end
  end.

(** A template literal prints [undefined] by name. *)
Definition template (v : option string) : string := default "undefined" v.

(** [ToBoolean] on a string-or-undefined: only a non-empty string is truthy. *)
Definition str_truthy (v : option string) : bool :=
  match v with
  | Some s => negb (String.eqb s "")
  | None => false
  end.

(** [v || d] on strings. *)
Definition str_or (v : option string) (d : string) : string :=
  match v with
  | Some s => if String.eqb s "" then d else s
  | None => d
  end.

(** ** Exceptions and promises *)

Inductive exn : Type :=
| Error (message : string)
| TypeError (message : string).

Definition exn_message (e : exn) : string :=
  match e with Error m | TypeError m => m end.

(** The message of the engine (V8) for a property read on [undefined]
    or [null]. *)
Definition cannot_read (base prop : string) : string :=
  "Cannot read properties of " +:+ base +:+ " (reading '" +:+ prop +:+ "')".

(** A completion: a normal value or a thrown exception. *)
Inductive completion (A : Type) : Type :=
| Ok (a : A)
| Throw (e : exn).
Arguments Ok {A} a.
Arguments Throw {A} e.

#[global] Instance completion_ret : MRet completion := λ A a, Ok a.
#[global] Instance completion_bind : MBind completion := λ A B f m,
  match m with
  | Ok a => f a
  | Throw e => Throw e
  end.

(** [l.forEach(body)] where [body] updates the state [S] and may throw:
    the first exception ends the loop. *)
Fixpoint forEach {A S : Type} (body : S → A → completion S) (l : list A) (s : S)
  : completion S :=
  match l with
  | [] => Ok s
  | x :: l' => s' ← body s x; forEach body l' s'
  end.

(** A settled promise. *)
Inductive outcome (A : Type) : Type :=
| Resolved (a : A)
| Rejected (reason : exn).
Arguments Resolved {A} a.
Arguments Rejected {A} reason.

(** ** The tree of xml2js

    With its default options [xml2js] turns an element that has neither
    attributes nor child elements into its text (the empty string for an
    empty element), and any other element into an object holding the
    attributes under [$] (only when there are some), the text under [_]
    (only when there is some) and, under each child element name, the
    array of the children of that name.  Attribute values are strings. *)

Definition attrbag : Type := list (string * string).

#[local] Unset Elimination Schemes.
Inductive node : Type :=
| NStr (text : string)
| NObj (attrs : option attrbag) (chars : option string)
       (children : list (string * list node)).
#[local] Set Elimination Schemes.

(** The parse result: [null] for an empty document, otherwise an object
    with the root element under its name. *)
Definition document : Type := option (string * node).

(** [obj[k]] on the properties of an object. *)
Fixpoint assoc {A : Type} (k : string) (l : list (string * A)) : option A :=
  match l with
  | [] => None
  | (k', v) :: l' => if String.eqb k' k then Some v else assoc k l'
  end.

(** [n.$] *)
Definition node_attrs (n : node) : option attrbag :=
  match n with
  | NStr _ => None
  | NObj a _ _ => a
  end.

(** [n._] *)
Definition node_chars (n : node) : option string :=
  match n with
  | NStr _ => None
  | NObj _ c _ => c
  end.

(** [n[k]] for an element name [k] *)
Definition node_child (k : string) (n : node) : option (list node) :=
  match n with
  | NStr _ => None
  | NObj _ _ cs => assoc k cs
  end.

(** [n[k]?.[0]] *)
Definition first_child (k : string) (n : node) : option node :=
  node_child k n ≫= head.

(** [ToBoolean]: the empty string is the only falsy node. *)
Definition node_truthy (n : node) : bool :=
  match n with
  | NStr s => negb (String.eqb s "")
  | NObj _ _ _ => true
  end.

Definition truthy (v : option node) : bool :=
  match v with
  | Some n => node_truthy n
  | None => false
  end.

(** What the Loader stage hands to the extractor: [fs.readFile] or the
    XML parser failed, or the document was parsed. *)
Inductive loaded : Type :=
| ReadFailed (e : exn)
| XmlFailed (e : exn)
| Parsed (result : document).

(** ** The CTRF types *)

(** Modelled from the spec: the types of [types/ctrf] (not among the
    sources), with the fields the two converters fill in.  An optional
    field that is absent, or set to [undefined] (which [outputJson] leaves
    out), is [None].  [T] is the type of what [message] and [trace] hold. *)
Module State.
Inductive CtrfTestState : Type := passed | failed | skipped | pending | other.
End State.
Abbreviation CtrfTestState := State.CtrfTestState.

#[global] Instance CtrfTestState_eq_dec : EqDecision CtrfTestState.
Proof. solve_decision. Defined.

Module Summary.
Record t : Type := mk {
  tests : number;
  passed : number;
  failed : number;
  pending : number;
  skipped : number;
  other : number;
  start : Z;
  stop : Z }.
End Summary.

Module CtrfTest.
Record t (T : Type) : Type := mk {
  name : string;
  status : CtrfTestState;
  duration : number;
  message : option T;
  trace : option T }.
Arguments mk {T}.
Arguments name {T}.
Arguments status {T}.
Arguments duration {T}.
Arguments message {T}.
Arguments trace {T}.
End CtrfTest.

Module CtrfReport.
Record t (T : Type) : Type := mk {
  tool : string;
  summary : Summary.t;
  tests : list (CtrfTest.t T);
  environment : option (gmap string (option string)) }.
Arguments mk {T}.
Arguments tool {T}.
Arguments summary {T}.
Arguments tests {T}.
Arguments environment {T}.
End CtrfReport.

(** The calls a conversion makes to the file system, oldest first,
    whether they succeed or not. *)
Inductive fs_event (Report : Type) : Type :=
| EnsureDir (dir : string)
| OutputJson (path : string) (report : Report).
Arguments EnsureDir {Report} dir.
Arguments OutputJson {Report} path report.

(** [Object.fromEntries(envProps.map(prop => prop.split("=")))]: each
    entry is the array of the pieces; its element 0 is the key and its
    element 1 the value ([None] is [undefined]).  Later entries overwrite
    earlier ones.  The order of the keys is not modelled. *)
Definition fromEntries (entries : list (list string))
  : gmap string (option string) :=
  foldl (λ obj e, <[template (e !! 0%nat) := e !! 1%nat]> obj) ∅ entries.

Definition envPropsObj (envProps : option (list string))
  : gmap string (option string) :=
  match envProps with
  | Some props => fromEntries (map (split "=") props)
  | None => ∅
  end.

(** ** The TestNG converter

    The repository holds two copies of this module; the one embedded
    here is the later one, with the guards ([parseInt(...) || 0],
    optional chaining, a [try] around each method). *)

Module TestNG.

Module TestNGTestCase.
Record t : Type := mk {
  name : string;
  status : string;
  duration : number;
  startTime : Z;
  endTime : Z;
  message : option node;
  trace : option node }.
End TestNGTestCase.

Module TestNGResults.
Record t : Type := mk {
  total : number;
  passed : number;
  failed : number;
  skipped : number;
  ignored : number;
  startTime : Z;
  endTime : Z;
  suiteName : string }.
End TestNGResults.

Section Converter.

(** [new Date(s).getTime()], [None] when it is [NaN]; which strings a
    [Date] accepts beyond the ISO format is left to the engine. *)
Variable Date_getTime : string → option Z.
(** [s.toLowerCase()] *)
Variable toLowerCase : string → string.
(** [path.resolve] (it depends on the working directory) and
    [path.dirname]. *)
Variable path_resolve path_dirname : string → string.
(** [fs.ensureDir(dir)] and [fs.outputJson(path, data)]: the error the
    promise rejects with, [None] when it resolves. *)
Variable ensureDir : string → option exn.
Variable outputJson : ∀ T : Type, string → CtrfReport.t T → option exn.

(** [dateString.split(" ")[0]] *)
Definition before_space (s : string) : string :=
  default EmptyString (head (split " " s)).

(** [parseDate]: on [undefined] the [Date] is invalid, then [split]
    throws and the [catch] returns 0. *)
Definition parseDate (dateString : option string) : Z :=
  match dateString with
  | None => 0
  | Some s =>
      match Date_getTime s with
      | Some t => t
      | None =>
          match Date_getTime (before_space s) with
          | Some t => t
          | None => 0
          end
      end
  end.

(** The [beforeSuite] method looked for among the methods of all the
    classes of all the tests of the suite. *)
Definition find_beforeSuite (tests : list node) : option node :=
  let classes := flat_map (λ test, default [] (node_child "class" test)) tests in
  let methods :=
    flat_map (λ classItem, default [] (node_child "test-method" classItem))
             classes in
  find (λ method,
          match node_attrs method with
          | Some a => bool_decide (assoc "name" a = Some "beforeSuite")
          | None => false
          end) methods.

(** [suite.$?.[k]] *)
Definition suite_attr (k : string) (suite : node) : option string :=
  node_attrs suite ≫= assoc k.

Definition startedAt (suite : node) : option string :=
  match node_child "test" suite ≫= find_beforeSuite with
  | Some beforeSuiteMethod => node_attrs beforeSuiteMethod ≫= assoc "started-at"
  | None => suite_attr "started-at" suite
  end.

(** The [results] object; [testngResults.$["total"]] throws when the
    root element carries no attribute. *)
Definition parseResults (testngResults suite : node)
  : completion TestNGResults.t :=
  match node_attrs testngResults with
  | None => Throw (TypeError (cannot_read "undefined" "total"))
  | Some a =>
      Ok {| TestNGResults.total := num_or_zero (parseInt (assoc "total" a));
            TestNGResults.passed := num_or_zero (parseInt (assoc "passed" a));
            TestNGResults.failed := num_or_zero (parseInt (assoc "failed" a));
            TestNGResults.skipped := num_or_zero (parseInt (assoc "skipped" a));
            TestNGResults.ignored := num_or_zero (parseInt (assoc "ignored" a));
            TestNGResults.startTime := parseDate (startedAt suite);
            TestNGResults.endTime := parseDate (suite_attr "finished-at" suite);
            TestNGResults.suiteName :=
              str_or (suite_attr "name" suite) "Unknown Suite" |}
  end.

(** [x?.[0]] kept when truthy: the value the guarded assignments of
    [message] and [trace] store. *)
Definition truthy_first (k : string) (exception : option node) : option node :=
  match exception ≫= first_child k with
  | Some x => if node_truthy x then Some x else None
  | None => None
  end.

(** The body of the innermost [forEach], inside its [try]: [Ok None]
    is the early [return], [Ok (Some testCase)] the [push]. *)
Definition parseMethod (test method : node)
  : completion (option TestNGTestCase.t) :=
  match node_attrs method with
  | None => Ok None
  | Some m =>
      if bool_decide (assoc "is_config" m = Some "true") then Ok None
      else
        match node_attrs test with
        | None => Throw (TypeError (cannot_read "undefined" "name"))
        | Some t =>
            let exception := first_child "exception" method in
            Ok (Some
              {| TestNGTestCase.name :=
                   str_or (assoc "name" t) "Unknown Test" +:+ ": "
                   +:+ str_or (assoc "name" m) "Unknown Method";
                 TestNGTestCase.status :=
                   toLowerCase (str_or (assoc "status" m) "other");
                 TestNGTestCase.duration :=
                   num_or_zero (parseInt (assoc "duration-ms" m));
                 TestNGTestCase.startTime := parseDate (assoc "started-at" m);
                 TestNGTestCase.endTime := parseDate (assoc "finished-at" m);
                 TestNGTestCase.message :=
                   if truthy exception then truthy_first "message" exception
                   else None;
                 TestNGTestCase.trace :=
                   if truthy exception
                   then truthy_first "full-stacktrace" exception
                   else None |})
        end
  end.

(** One turn of the innermost loop: the [catch] drops the method. *)
Definition eachMethod (test : node) (testCases : list TestNGTestCase.t)
    (method : node) : list TestNGTestCase.t :=
  match parseMethod test method with
  | Ok (Some testCase) => testCases ++ [testCase]
  | Ok None | Throw _ => testCases
  end.

Definition eachClass (test : node) (testCases : list TestNGTestCase.t)
    (classObj : node) : list TestNGTestCase.t :=
  match node_child "test-method" classObj with
  | None => testCases
  | Some methods => foldl (eachMethod test) testCases methods
  end.

Definition eachTest (testCases : list TestNGTestCase.t) (test : node)
  : list TestNGTestCase.t :=
  match node_child "class" test with
  | None => testCases
  | Some classes => foldl (eachClass test) testCases classes
  end.

(** The walk over [suite.test], filling the array [testCases]. *)
Definition walk (suite : node) : list TestNGTestCase.t :=
  match node_child "test" suite with
  | None => []
  | Some tests => foldl eachTest [] tests
  end.

(** [result[k]] on the parse result; reading a property of [null] throws. *)
Definition root_element (k : string) (result : document)
  : completion (option node) :=
  match result with
  | None => Throw (TypeError (cannot_read "null" k))
  | Some (root, n) => Ok (if String.eqb root k then Some n else None)
  end.

(** The callback of [parseString] in [parseTestNGReport], from its
    [try] on; [inl] is a call of [reject], [inr] of [resolve]. *)
Definition extract (result : document)
  : completion (exn + list TestNGTestCase.t * TestNGResults.t) :=
  testngResults ← root_element "testng-results" result;
  match testngResults with
  | None =>
      Ok (inl (Error "Invalid TestNG report format: missing testng-results"))
  | Some testngResults =>
      if negb (node_truthy testngResults)
      then Ok (inl (Error "Invalid TestNG report format: missing testng-results"))
      else
        match first_child "suite" testngResults with
        | None => Ok (inl (Error "Invalid TestNG report format: missing suite"))
        | Some suite =>
            if negb (node_truthy suite)
            then Ok (inl (Error "Invalid TestNG report format: missing suite"))
            else
              results ← parseResults testngResults suite;
              Ok (inr (walk suite, results))
        end
  end.

Definition parseTestNGReport (file : loaded)
  : outcome (list TestNGTestCase.t * TestNGResults.t) :=
  match file with
  | ReadFailed e => Rejected e
  | XmlFailed e =>
      Rejected (Error ("Failed to parse TestNG XML: " +:+ exn_message e))
  | Parsed result =>
      match extract result with
      | Ok (inr r) => Resolved r
      | Ok (inl e) => Rejected e
      | Throw e =>
          Rejected (Error ("Failed to parse TestNG report: " +:+ exn_message e))
      end
  end.

Definition convertToCTRFTest (testCase : TestNGTestCase.t) : CtrfTest.t node :=
  let status :=
    if String.eqb (TestNGTestCase.status testCase) "pass" then State.passed
    else if String.eqb (TestNGTestCase.status testCase) "fail" then State.failed
    else if String.eqb (TestNGTestCase.status testCase) "skip" then State.skipped
    else State.other in
  {| CtrfTest.name := TestNGTestCase.name testCase;
     CtrfTest.status := status;
     CtrfTest.duration := TestNGTestCase.duration testCase;
     CtrfTest.message :=
       if bool_decide (status = State.failed)
          && truthy (TestNGTestCase.message testCase)
       then TestNGTestCase.message testCase else None;
     CtrfTest.trace :=
       if bool_decide (status = State.failed)
          && truthy (TestNGTestCase.trace testCase)
       then TestNGTestCase.trace testCase else None |}.

Definition createCTRFReport (testCases : list TestNGTestCase.t)
    (results : TestNGResults.t) (toolName : option string)
    (envProps : gmap string (option string)) : CtrfReport.t node :=
  let ctrfTests := map convertToCTRFTest testCases in
  {| CtrfReport.tool := str_or toolName "TestNG";
     CtrfReport.summary :=
       {| Summary.tests := TestNGResults.total results;
          Summary.passed := TestNGResults.passed results;
          Summary.failed := TestNGResults.failed results;
          Summary.pending := Num 0;
          Summary.skipped := TestNGResults.skipped results;
          Summary.other := TestNGResults.ignored results;
          Summary.start := TestNGResults.startTime results;
          Summary.stop := TestNGResults.endTime results |};
     CtrfReport.tests := ctrfTests;
     CtrfReport.environment := Some envProps |}.

(** [convertTestngToCTRF]: the file-system calls it makes and how its
    promise settles; each [await] passes a rejection on. *)
Definition convertTestngToCTRF (file : loaded)
    (outputPath toolName : option string) (envProps : option (list string))
  : list (fs_event (CtrfReport.t node)) * outcome unit :=
  match parseTestNGReport file with
  | Rejected e => ([], Rejected e)
  | Resolved (testCases, results) =>
      let ctrfReport :=
        createCTRFReport testCases results toolName (envPropsObj envProps) in
      let finalOutputPath :=
        path_resolve (str_or outputPath "ctrf/ctrf-report.json") in
      let outputDir := path_dirname finalOutputPath in
      match ensureDir outputDir with
      | Some e => ([EnsureDir outputDir], Rejected e)
      | None =>
          ([EnsureDir outputDir; OutputJson finalOutputPath ctrfReport],
           match outputJson _ finalOutputPath ctrfReport with
           | Some e => Rejected e
           | None => Resolved tt
           end)
      end
  end.

End Converter.
End TestNG.

(** ** The JUnit converter *)

Module JUnit.

Module JUnitTestCase.
Record t : Type := mk {
  suite : option string;
  classname : option string;
  name : option string;
  time : option string;
  failure : option string;
  error : option string;
  skipped : bool }.
End JUnitTestCase.

(** [x ? (typeof x === 'string' ? x : x._) : undefined] for
    [x = testCase[k] ? testCase[k][0] : undefined] *)
Definition element_text (k : string) (testCase : node) : option string :=
  match first_child k testCase with
  | Some x =>
      if node_truthy x
      then match x with NStr s => Some s | NObj _ c _ => c end
      else None
  | None => None
  end.

(** The body of [suite.testcase.forEach]; destructuring [testCase.$]
    throws when the test case carries no attribute. *)
Definition parseTestCase (suiteName : option string)
    (testCases : list JUnitTestCase.t) (testCase : node)
  : completion (list JUnitTestCase.t) :=
  match node_attrs testCase with
  | None =>
      Throw (TypeError
        "Cannot destructure property 'classname' of 'testCase.$' as it is undefined.")
  | Some a =>
      Ok (testCases ++
          [ {| JUnitTestCase.suite := suiteName;
               JUnitTestCase.classname := assoc "classname" a;
               JUnitTestCase.name := assoc "name" a;
               JUnitTestCase.time := assoc "time" a;
               JUnitTestCase.failure := element_text "failure" testCase;
               JUnitTestCase.error := element_text "error" testCase;
               JUnitTestCase.skipped :=
                 bool_decide (is_Some (node_child "skipped" testCase)) |} ])
  end.

(** [parseTestSuite], threading the array [testCases] it pushes to.
    The two inner loops find [suite.testsuite] among the children and
    run over it. *)
Fixpoint parseTestSuite (suite : node) (suiteName : option string)
    (testCases : list JUnitTestCase.t) {struct suite}
  : completion (list JUnitTestCase.t) :=
  match suite with
  | NStr _ => Ok testCases
  | NObj _ _ children =>
      testCases ←
        match assoc "testcase" children with
        | Some l => forEach (parseTestCase suiteName) l testCases
        | None => Ok testCases
        end;
      (fix lookup (cs : list (string * list node)) :=
         match cs with
         | [] => Ok testCases
         | (k, l) :: cs' =>
             if String.eqb k "testsuite"
             then
               (fix each (l : list node) (testCases : list JUnitTestCase.t) :=
                  match l with
                  | [] => Ok testCases
                  | nestedSuite :: l' =>
                      testCases ← parseTestSuite nestedSuite suiteName testCases;
                      each l' testCases
                  end) l testCases
             else lookup cs'
         end) children
  end.

(** The body of [result.testsuites.testsuite.forEach]. *)
Definition parseTopSuite (testCases : list JUnitTestCase.t) (suite : node)
  : completion (list JUnitTestCase.t) :=
  match node_attrs suite with
  | None => Throw (TypeError (cannot_read "undefined" "name"))
  | Some a => parseTestSuite suite (assoc "name" a) testCases
  end.

Definition extract (result : document) : completion (list JUnitTestCase.t) :=
  match result with
  | None => Throw (TypeError (cannot_read "null" "testsuites"))
  | Some (root, n) =>
      if String.eqb root "testsuites"
      then
        match node_child "testsuite" n with
        | None => Throw (TypeError (cannot_read "undefined" "forEach"))
        | Some suites => forEach parseTopSuite suites []
        end
      else Throw (TypeError (cannot_read "undefined" "testsuite"))
  end.

Definition parseJUnitReport (file : loaded) : outcome (list JUnitTestCase.t) :=
  match file with
  | ReadFailed e | XmlFailed e => Rejected e
  | Parsed result =>
      match extract result with
      | Ok testCases => Resolved testCases
      | Throw e => Rejected e
      end
  end.

(** [a || b] on strings. *)
Definition or_else (a b : option string) : option string :=
  if str_truthy a then a else b.

Definition convertToCTRFTest (testCase : JUnitTestCase.t) : CtrfTest.t string :=
  let status :=
    if str_truthy (JUnitTestCase.failure testCase) then State.failed
    else if str_truthy (JUnitTestCase.error testCase) then State.failed
    else if JUnitTestCase.skipped testCase then State.skipped
    else State.passed in
  let durationMs :=
    Math_round (num_mul (parseFloat (JUnitTestCase.time testCase)) (Num 1000)) in
  let text :=
    or_else (JUnitTestCase.failure testCase) (JUnitTestCase.error testCase) in
  {| CtrfTest.name :=
       template (JUnitTestCase.suite testCase) +:+ ": "
       +:+ template (JUnitTestCase.name testCase);
     CtrfTest.status := status;
     CtrfTest.duration := durationMs;
     CtrfTest.message := if str_truthy text then text else None;
     CtrfTest.trace := if str_truthy text then text else None |}.

(** [ctrfTests.filter(test => test.status === s).length] *)
Definition tally (s : CtrfTestState) (ctrfTests : list (CtrfTest.t string))
  : number :=
  Num (inject_Z (Z.of_nat (List.length
    (filter (λ test, CtrfTest.status test = s) ctrfTests)))).

Definition createCTRFReport (testCases : list JUnitTestCase.t)
    (toolName : option string) (envProps : gmap string (option string))
  : CtrfReport.t string :=
  let ctrfTests := map convertToCTRFTest testCases in
  {| CtrfReport.tool := str_or toolName "junit-to-ctrf";
     CtrfReport.summary :=
       {| Summary.tests := Num (inject_Z (Z.of_nat (List.length ctrfTests)));
          Summary.passed := tally State.passed ctrfTests;
          Summary.failed := tally State.failed ctrfTests;
          Summary.skipped := tally State.skipped ctrfTests;
          Summary.pending := tally State.pending ctrfTests;
          Summary.other := tally State.other ctrfTests;
          Summary.start := 0;
          Summary.stop := 0 |};
     CtrfReport.tests := ctrfTests;
     CtrfReport.environment :=
       if bool_decide (envProps = ∅) then None else Some envProps |}.

Section Converter.

(** [path.resolve] and [path.dirname]; [fs.ensureDir(dir)] and
    [fs.outputJson(path, data)], with the error the promise rejects with,
    [None] when it resolves. *)
Variable path_resolve path_dirname : string → string.
Variable ensureDir : string → option exn.
Variable outputJson : ∀ T : Type, string → CtrfReport.t T → option exn.

(** [convertJUnitToCTRF]: the file-system calls it makes and how its
    promise settles; each [await] passes a rejection on. *)
Definition convertJUnitToCTRF (file : loaded)
    (outputPath toolName : option string) (envProps : option (list string))
  : list (fs_event (CtrfReport.t string)) * outcome unit :=
  match parseJUnitReport file with
  | Rejected e => ([], Rejected e)
  | Resolved testCases =>
      let ctrfReport :=
        createCTRFReport testCases toolName (envPropsObj envProps) in
      let finalOutputPath :=
        path_resolve (str_or outputPath "ctrf/ctrf-report.json") in
      let outputDir := path_dirname finalOutputPath in
      match ensureDir outputDir with
      | Some e => ([EnsureDir outputDir], Rejected e)
      | None =>
          ([EnsureDir outputDir; OutputJson finalOutputPath ctrfReport],
           match outputJson _ finalOutputPath ctrfReport with
           | Some e => Rejected e
           | None => Resolved tt
           end)
      end
  end.

End Converter.
End JUnit.

(** * Vocabulary of the properties *)

(** The value the last entry with key [k] carries, if any. *)
Definition last_value (k : string) (entries : list (list string))
  : option (option string) :=
  foldl (λ acc e, if decide (template (e !! 0%nat) = k) then Some (e !! 1%nat) else acc)
        None entries.

(** Whether the character [c] occurs in [s]. *)
Fixpoint has_char (c : ascii) (s : string) : bool :=
  match s with
  | EmptyString => false
  | String c' s' => Ascii.eqb c' c || has_char c s'
  end.

(** ** Sample documents *)

(** Three [test-method] elements: a configuration method, a passing
    method, and a method whose duration is negative. *)
Definition method_setup : node :=
  NObj (Some [("name", "setUp"); ("is_config", "true"); ("status", "PASS");
              ("duration-ms", "3")]) None [].
Definition method_login : node :=
  NObj (Some [("name", "login"); ("status", "PASS"); ("duration-ms", "12")])
       None [].
Definition method_skewed : node :=
  NObj (Some [("name", "skewed"); ("status", "FAIL"); ("duration-ms", "-5")])
       None [].

(** [<test name="T"> <class name="K"> methods </class> </test>] *)
Definition test_T (methods : list node) : node :=
  NObj (Some [("name", "T")]) None
       [("class", [NObj (Some [("name", "K")]) None [("test-method", methods)]])].

(** [<suite name="S"> <test name="T"> ... </test> </suite>] *)
Definition suite_S (methods : list node) : node :=
  NObj (Some [("name", "S")]) None [("test", [test_T methods])].

(** [<testng-results root_attrs> suites </testng-results>] *)
Definition testng_document (root_attrs : option attrbag) (suites : list node)
  : document :=
  Some ("testng-results", NObj root_attrs None [("suite", suites)]).

(** [total="2" passed="1" failed="1" skipped="0" ignored="0"] *)
Definition counts_2_1_1 : attrbag :=
  [("total", "2"); ("passed", "1"); ("failed", "1"); ("skipped", "0");
   ("ignored", "0")].

(** [<testsuites> <testsuite name="S"> <testcase .../> ... ] *)
Definition junit_document (testcases : list node) : document :=
  Some ("testsuites",
        NObj None None
          [("testsuite", [NObj (Some [("name", "S")]) None
                               [("testcase", testcases)]])]).

(** [<testcase name="t" classname="c" time="..."> children </testcase>] *)
Definition testcase_t (time : string) (children : list (string * list node))
  : node :=
  NObj (Some [("name", "t"); ("classname", "c"); ("time", time)]) None children.

(** [<failure message="boom"/>]: attributes, no text. *)
Definition failure_without_text : node :=
  NObj (Some [("message", "boom")]) None [].

(** ** Predicates on documents and trees *)

(** The document has no root element named [k]. *)
Definition lacks_root (k : string) (result : document) : Prop :=
  match result with
  | Some (root, _) => root ≠ k
  | None => True
  end.

(** [s.includes(what)] *)
Definition mentions (what s : string) : bool :=
  match String.index 0 what s with
  | Some _ => true
  | None => false
  end.

(** The element carries attributes: [n.$] is defined. *)
Definition has_attrs (n : node) : bool :=
  match node_attrs n with
  | Some _ => true
  | None => false
  end.

(** The record [parseTestSuite] pushes for a test case. *)
Definition testCase_of (suiteName : option string) (testCase : node)
  : JUnit.JUnitTestCase.t :=
  {| JUnit.JUnitTestCase.suite := suiteName;
     JUnit.JUnitTestCase.classname := node_attrs testCase ≫= assoc "classname";
     JUnit.JUnitTestCase.name := node_attrs testCase ≫= assoc "name";
     JUnit.JUnitTestCase.time := node_attrs testCase ≫= assoc "time";
     JUnit.JUnitTestCase.failure := JUnit.element_text "failure" testCase;
     JUnit.JUnitTestCase.error := JUnit.element_text "error" testCase;
     JUnit.JUnitTestCase.skipped :=
       bool_decide (is_Some (node_child "skipped" testCase)) |}.

(** What destructuring [testCase.$] throws when it is [undefined]. *)
Definition destructure_error : exn :=
  TypeError
    "Cannot destructure property 'classname' of 'testCase.$' as it is undefined.".

(** The text the status and the message are taken from. *)
Definition failure_text (testCase : node) : option string :=
  JUnit.or_else (JUnit.element_text "failure" testCase)
                (JUnit.element_text "error" testCase).

(** The [(test, method)] pairs under a test, a suite, and under every
    suite of the root, in document order. *)
Definition test_methods (test : node) : list (node * node) :=
  flat_map (λ classObj, map (pair test) (default [] (node_child "test-method" classObj)))
           (default [] (node_child "class" test)).

(** The pairs of a suite. *)
Definition suite_methods (suite : node) : list (node * node) :=
  flat_map test_methods (default [] (node_child "test" suite)).

(** The pairs of all the suites of the report. *)
Definition report_methods (result : document) : list (node * node) :=
  match result with
  | Some (_, root) => flat_map suite_methods (default [] (node_child "suite" root))
  | None => []
  end.

(** Those of the first suite only. *)
Definition first_suite_methods (result : document) : list (node * node) :=
  match result with
  | Some (_, root) => from_option suite_methods [] (first_child "suite" root)
  | None => []
  end.

(** [method.$.is_config === "true"] *)
Definition is_config (method : node) : bool :=
  bool_decide (node_attrs method ≫= assoc "is_config" = Some "true").

(** The test case the walk keeps for a method, if any. *)
Definition kept (Date_getTime : string → option Z)
    (toLowerCase : string → string) (tm : node * node)
  : option TestNG.TestNGTestCase.t :=
  match TestNG.parseMethod Date_getTime toLowerCase tm.1 tm.2 with
  | Ok (Some testCase) => Some testCase
  | Ok None | Throw _ => None
  end.

(** A method and the output test made from it. *)
Definition test_of_method (Date_getTime : string → option Z)
    (toLowerCase : string → string) (tm : node * node)
    (t : CtrfTest.t node) : Prop :=
  ∃ testCase,
    TestNG.parseMethod Date_getTime toLowerCase tm.1 tm.2 = Ok (Some testCase)
    ∧ t = TestNG.convertToCTRFTest testCase.

(** Induction on trees: the property holds of every child. *)
Fixpoint node_ind (P : node → Prop) (HStr : ∀ s, P (NStr s))
    (HObj : ∀ a c cs, Forall (λ kv, Forall P kv.2) cs → P (NObj a c cs))
    (n : node) {struct n} : P n :=
  match n with
  | NStr s => HStr s
  | NObj a c cs =>
      HObj a c cs
        ((fix children (cs : list (string * list node))
            : Forall (λ kv, Forall P kv.2) cs :=
            match cs with
            | [] => @List.Forall_nil _ _
            | (k, l) :: cs' =>
                @List.Forall_cons _ (λ kv, Forall P kv.2) (k, l) cs'
                  ((fix each (l : list node) : Forall P l :=
                      match l with
                      | [] => @List.Forall_nil _ _
                      | x :: l' =>
                          @List.Forall_cons _ P x l' (node_ind P HStr HObj x)
                                            (each l')
                      end) l)
                  (children cs')
            end) cs)
  end.

(** The [testcase] elements of a suite at all nesting levels, the
    suite's own first, then those of its nested suites. *)
Fixpoint testcases (suite : node) : list node :=
  match suite with
  | NStr _ => []
  | NObj _ _ children =>
      default [] (assoc "testcase" children)
      ++ (fix lookup (cs : list (string * list node)) :=
            match cs with
            | [] => []
            | (k, l) :: cs' =>
                if String.eqb k "testsuite"
                then (fix each (l : list node) :=
                        match l with
                        | [] => []
                        | nestedSuite :: l' => testcases nestedSuite ++ each l'
                        end) l
                else lookup cs'
            end) children
  end.

(** Each test case of the report with the name of its top-level suite. *)
Definition report_testcases (result : document) : list (option string * node) :=
  match result with
  | Some (_, root) =>
      flat_map (λ suite, map (pair (node_attrs suite ≫= assoc "name")) (testcases suite))
               (default [] (node_child "testsuite" root))
  | None => []
  end.

(** The shape [parseJUnitReport] needs: a [testsuites] root with
    [testsuite] children that carry attributes, and attributes on every
    test case. *)
Definition junit_well_formed (result : document) : bool :=
  match result with
  | Some (root, n) =>
      String.eqb root "testsuites"
      && match node_child "testsuite" n with
         | Some suites =>
             forallb (λ suite, has_attrs suite && forallb has_attrs (testcases suite))
                     suites
         | None => false
         end
  | None => false
  end.

(** What [parseTestSuite] does on a suite, as an equation. *)
Definition parseTestSuite_pushes (suite : node) : Prop :=
  ∀ suiteName testCases,
    JUnit.parseTestSuite suite suiteName testCases
    = if forallb has_attrs (testcases suite)
      then Ok (testCases ++ map (testCase_of suiteName) (testcases suite))
      else Throw destructure_error.

(** A suite with one test case of its own and a nested suite with two. *)
Definition nested_document : document :=
  Some ("testsuites",
        NObj None None
          [("testsuite",
            [NObj (Some [("name", "Suite A")]) None
               [("testcase", [testcase_t "1.234" []]);
                ("testsuite",
                 [NObj None None
                    [("testcase",
                      [testcase_t "0" [];
                       testcase_t "0.5" [("failure", [NStr "boom"])]])]])]])]).

(** A report with the counts [total=5 passed=3 failed=1 skipped=1
    ignored=0] and five methods, none of them a configuration method. *)
Definition five_methods_document : document :=
  testng_document
    (Some [("total", "5"); ("passed", "3"); ("failed", "1"); ("skipped", "1");
           ("ignored", "0")])
    [suite_S
       [NObj (Some [("name", "a"); ("status", "PASS"); ("duration-ms", "1")]) None [];
        NObj (Some [("name", "b"); ("status", "PASS"); ("duration-ms", "2")]) None [];
        NObj (Some [("name", "c"); ("status", "PASS"); ("duration-ms", "3")]) None [];
        NObj (Some [("name", "d"); ("status", "FAIL"); ("duration-ms", "4")]) None
             [("exception",
               [NObj (Some [("class", "java.lang.AssertionError")]) None
                     [("message", [NStr "expected 1"]);
                      ("full-stacktrace", [NStr "at d(K.java:4)"])]])];
        NObj (Some [("name", "e"); ("status", "SKIP"); ("duration-ms", "0")]) None []]].




(** [d] is an integer nearest to [p]; of two equally near, the upper. *)
Definition nearest_ties_up (p : Q) (d : Z) : Prop :=
  (p - (1 # 2) < inject_Z d)%Q ∧ (inject_Z d <= p + (1 # 2))%Q.

(** [d] is an integer nearest to [p]; of two equally near, the one
    away from zero. *)
Definition nearest_ties_away (p : Q) (d : Z) : Prop :=
  (Qabs (inject_Z d - p) <= 1 # 2)%Q
  ∧ ((Qabs (inject_Z d - p) == 1 # 2)%Q → (Qabs p < Qabs (inject_Z d))%Q).



(** ** Vocabulary of the further properties *)

(** The text of [s] before its first [sep], all of [s] when it has none:
    [s.split(sep)[0]]. *)
Fixpoint before_char (sep : ascii) (s : string) : string :=
  match s with
  | EmptyString => EmptyString
  | String c s' =>
      if Ascii.eqb c sep then EmptyString else String c (before_char sep s')
  end.

(** A [Date] that accepts the ISO day [2024-01-01] and nothing else. *)
Definition Date_only_day (s : string) : option Z :=
  if String.eqb s "2024-01-01" then Some 1704067200000 else None.

(** The documents [parseTestNGReport] resolves on: a [testng-results]
    root that carries attributes and whose first [suite] child is not
    an empty element. *)
Definition testng_accepts (result : document) : bool :=
  match result with
  | Some (root, n) =>
      String.eqb root "testng-results" && has_attrs n
      && truthy (first_child "suite" n)
  | None => false
  end.

(** The first [suite] element of the root. *)
Definition first_suite (result : document) : option node :=
  match result with
  | Some (_, root) => first_child "suite" root
  | None => None
  end.

(** [method.$ && method.$.name === "beforeSuite"] *)
Definition named_beforeSuite (method : node) : bool :=
  bool_decide (node_attrs method ≫= assoc "name" = Some "beforeSuite").

(** The method and its test carry attributes and the method is not a
    configuration method. *)
Definition becomes_test (tm : node * node) : bool :=
  has_attrs tm.1 && has_attrs tm.2 && negb (is_config tm.2).

(** A report whose second test element has no attribute. *)
Definition anonymous_test_document : document :=
  testng_document (Some counts_2_1_1)
    [NObj (Some [("name", "S"); ("started-at", "2024-01-01");
                 ("finished-at", "2024-01-01")]) None
       [("test",
         [test_T [method_setup; method_login];
          NObj None None
            [("class", [NObj None None [("test-method", [method_skewed])]])]])]].

(** What a TestNG output test never is: [pending]; with a message or a
    trace without being [failed]; with a falsy message or trace. *)
Definition testng_test_sound (t : CtrfTest.t node) : Prop :=
  CtrfTest.status t ≠ State.pending
  ∧ (is_Some (CtrfTest.message t) ∨ is_Some (CtrfTest.trace t) →
     CtrfTest.status t = State.failed)
  ∧ truthy (CtrfTest.message t) = bool_decide (is_Some (CtrfTest.message t))
  ∧ truthy (CtrfTest.trace t) = bool_decide (is_Some (CtrfTest.trace t)).

(** The status the JUnit converter gives a test case: [failed] when its
    failure or error element yields a non-empty text, else [skipped]
    when it has a [skipped] child, else [passed]. *)
Definition junit_status (testCase : node) : CtrfTestState :=
  if str_truthy (failure_text testCase) then State.failed
  else if bool_decide (is_Some (node_child "skipped" testCase)) then State.skipped
  else State.passed.

(** The number [n] as a JavaScript number. *)
Definition of_nat (n : nat) : number := Num (inject_Z (Z.of_nat n)).

(** A test case with the given children and fixed attributes. *)
Definition testcase_with (children : list (string * list node)) : node :=
  NObj (Some [("name", "t"); ("classname", "c"); ("time", "0.25")]) None children.




(** The name of the test of a JUnit test case tagged [suiteName]. *)
Definition junit_name (st : option string * node) : string :=
  template st.1 +:+ ": " +:+ template (node_attrs st.2 ≫= assoc "name").

(** A count of the summary read from the attribute [k] of the root. *)
Definition count_of (k : string) (a : attrbag) : number :=
  num_or_zero (parseInt (assoc k a)).

(** The report a conversion builds from what its parse resolves with. *)
Definition testng_report (Date_getTime : string → option Z)
    (toLowerCase : string → string) (file : loaded) (toolName : option string)
    (envProps : option (list string)) : outcome (CtrfReport.t node) :=
  match TestNG.parseTestNGReport Date_getTime toLowerCase file with
  | Resolved (testCases, results) =>
      Resolved (TestNG.createCTRFReport testCases results toolName
                  (envPropsObj envProps))
  | Rejected e => Rejected e
  end.

Definition junit_report (file : loaded) (toolName : option string)
    (envProps : option (list string)) : outcome (CtrfReport.t string) :=
  match JUnit.parseJUnitReport file with
  | Resolved testCases =>
      Resolved (JUnit.createCTRFReport testCases toolName (envPropsObj envProps))
  | Rejected e => Rejected e
  end.


(** A file system in which nothing fails, and one in which nothing can
    be made or written. *)
Definition mkdir_fine (dir : string) : option exn := None.
Definition write_fine (T : Type) (path : string) (report : CtrfReport.t T)
  : option exn := None.
Definition mkdir_read_only (dir : string) : option exn :=
  Some (Error ("EROFS: read-only file system, mkdir '" +:+ dir +:+ "'")).
Definition write_read_only (T : Type) (path : string) (report : CtrfReport.t T)
  : option exn :=
  Some (Error ("EROFS: read-only file system, open '" +:+ path +:+ "'")).

(** * Properties *)

(** ** Maps built by [Object.fromEntries]; the pieces [split] cuts *)

Lemma foldl_insert_lookup (k : string) (entries : list (list string)) :
  ∀ (obj : gmap string (option string)) (acc : option (option string)),
    obj !! k = acc →
    foldl (λ obj e, <[template (e !! 0%nat) := e !! 1%nat]> obj) obj entries !! k
    = foldl (λ acc e, if decide (template (e !! 0%nat) = k) then Some (e !! 1%nat) else acc)
            acc entries.
Proof.
  induction entries as [|e entries IH]; intros obj acc Hobj; simpl; [done|].
  apply IH. destruct (decide (template (e !! 0%nat) = k)) as [->|Hne].
  - apply lookup_insert_eq.
  - by rewrite lookup_insert_ne.
Qed.

Lemma fromEntries_lookup (k : string) (entries : list (list string)) :
  fromEntries entries !! k = last_value k entries.
Proof. apply foldl_insert_lookup, lookup_empty. Qed.

Lemma last_value_app (k : string) (es : list (list string)) (e : list string) :
  last_value k (es ++ [e])
  = if decide (template (e !! 0%nat) = k) then Some (e !! 1%nat) else last_value k es.
Proof. unfold last_value. by rewrite foldl_app. Qed.

(** Last wins: whatever precedes it, the last entry decides its key. *)
Lemma fromEntries_last_wins (es : list (list string)) (key : string)
    (rest : list string) :
  fromEntries (es ++ [key :: rest]) !! key = Some (head rest).
Proof.
  rewrite fromEntries_lookup, last_value_app. simpl.
  rewrite decide_True by done. by destruct rest.
Qed.

Lemma split_nonempty (sep : ascii) (s : string) : split sep s ≠ [].
Proof.
  destruct s as [|c s]; simpl; [done|].
  destruct (Ascii.eqb c sep); [done|]. by destruct (split sep s).
Qed.

Lemma split_no_sep (sep : ascii) (s : string) :
  has_char sep s = false → split sep s = [s].
Proof.
  induction s as [|c s IH]; simpl; [done|].
  destruct (Ascii.eqb c sep); simpl; [done|]. intros H. by rewrite IH.
Qed.

Lemma split_at_first (sep : ascii) (a b : string) :
  has_char sep a = false →
  split sep (a +:+ String sep b) = a :: split sep b.
Proof.
  induction a as [|c a IH]; simpl.
  - intros _. by rewrite Ascii.eqb_refl.
  - destruct (Ascii.eqb c sep); simpl; [done|]. intros H. by rewrite IH.
Qed.

(** The entry of [KEY=value]: the key is the text before the first [=],
    the value the text between the first [=] and the second one (or the
    end); what follows a second [=] is not part of the entry's value. *)
Lemma entry_of_key_value (key value : string) :
  has_char "=" key = false → has_char "=" value = false →
  split "=" (key +:+ "=" +:+ value) !! 0%nat = Some key ∧
  split "=" (key +:+ "=" +:+ value) !! 1%nat = Some value.
Proof.
  intros Hk Hv. change ("=" +:+ value) with (String "=" value).
  rewrite split_at_first by done. by rewrite split_no_sep.
Qed.

Lemma entry_of_key_value_more (key value more : string) :
  has_char "=" key = false → has_char "=" value = false →
  split "=" (key +:+ "=" +:+ value +:+ "=" +:+ more) !! 0%nat = Some key ∧
  split "=" (key +:+ "=" +:+ value +:+ "=" +:+ more) !! 1%nat = Some value.
Proof.
  intros Hk Hv.
  change ("=" +:+ value +:+ "=" +:+ more) with (String "=" (value +:+ String "=" more)).
  rewrite split_at_first by done. by rewrite split_at_first.
Qed.

(** The environment after a last property [key=value=more]: under
    [key], the text between the first and the second [=]. *)
Lemma envPropsObj_last_property (props : list string) (key value more : string) :
  has_char "=" key = false → has_char "=" value = false →
  envPropsObj (Some (props ++ [key +:+ "=" +:+ value +:+ "=" +:+ more])) !! key
  = Some (Some value).
Proof.
  intros Hk Hv. unfold envPropsObj.
  rewrite map_app. cbn [map]. rewrite fromEntries_lookup, last_value_app.
  destruct (entry_of_key_value_more key value more Hk Hv) as [-> ->].
  simpl. by rewrite decide_True.
Qed.

(** The same for [key=value], where the value has no [=]. *)
Lemma envPropsObj_last_plain (props : list string) (key value : string) :
  has_char "=" key = false → has_char "=" value = false →
  envPropsObj (Some (props ++ [key +:+ "=" +:+ value])) !! key
  = Some (Some value).
Proof.
  intros Hk Hv. unfold envPropsObj.
  rewrite map_app. cbn [map]. rewrite fromEntries_lookup, last_value_app.
  destruct (entry_of_key_value key value Hk Hv) as [-> ->].
  simpl. by rewrite decide_True.
Qed.

(** ** The environment mapping *)

(** C5. The environment of either entry point is
    [Object.fromEntries(envProps.map(prop => prop.split("=")))]: for the
    single property [URL=http://h/?a=b] the value stored under [URL] is
    [http://h/?a], the text up to the second [=]; splitting on the
    first [=] only would have kept [http://h/?a=b].  Both converters
    hand that environment to [outputJson], once [ensureDir] has
    resolved. *)
Theorem env_value_cut_at_second_equals :
  envPropsObj (Some ["URL=http://h/?a=b"]) !! "URL" = Some (Some "http://h/?a")
  ∧ (∀ Date_getTime toLowerCase path_resolve path_dirname outputJson
       outputPath toolName,
       ∃ path report,
         (TestNG.convertTestngToCTRF Date_getTime toLowerCase path_resolve
            path_dirname (λ _, None) outputJson
            (Parsed (testng_document (Some counts_2_1_1) [suite_S [method_login]]))
            outputPath toolName (Some ["URL=http://h/?a=b"])).1 !! 1%nat
         = Some (OutputJson path report)
         ∧ CtrfReport.environment report ≫= (.!! "URL")
           = Some (Some "http://h/?a"))
  ∧ (∀ path_resolve path_dirname outputJson outputPath toolName,
       ∃ path report,
         (JUnit.convertJUnitToCTRF path_resolve path_dirname (λ _, None)
            outputJson
            (Parsed (junit_document [testcase_t "0.1" []]))
            outputPath toolName (Some ["URL=http://h/?a=b"])).1 !! 1%nat
         = Some (OutputJson path report)
         ∧ CtrfReport.environment report ≫= (.!! "URL")
           = Some (Some "http://h/?a")).
Proof.
  split; [by vm_compute|]. split.
  - intros. eexists _, _. split; [reflexivity|]. by vm_compute.
  - intros. eexists _, _. split; [reflexivity|]. by vm_compute.
Qed.

(** ** TestNG: status mapping *)

(** C8. For every TestNG test case, the raw status [pass] is mapped to
    [passed], [fail] to [failed], [skip] to [skipped], and every other
    raw status to [other]. *)
Theorem testng_status_mapping (testCase : TestNG.TestNGTestCase.t) :
  let raw := TestNG.TestNGTestCase.status testCase in
  let status := CtrfTest.status (TestNG.convertToCTRFTest testCase) in
  (raw = "pass" → status = State.passed) ∧
  (raw = "fail" → status = State.failed) ∧
  (raw = "skip" → status = State.skipped) ∧
  (raw ≠ "pass" → raw ≠ "fail" → raw ≠ "skip" → status = State.other).
Proof.
  destruct testCase as [n raw d st en m t]; simpl.
  repeat split.
  - by intros ->.
  - by intros ->.
  - by intros ->.
  - intros H1 H2 H3.
    apply String.eqb_neq in H1, H2, H3. by rewrite H1, H2, H3.
Qed.

Lemma testng_status_mapping_witness :
  CtrfTest.status
    (TestNG.convertToCTRFTest
       (TestNG.TestNGTestCase.mk "T: m" "blocked" (Num 0) 0 0 None None))
  = State.other.
Proof.
  apply (testng_status_mapping
           (TestNG.TestNGTestCase.mk "T: m" "blocked" (Num 0) 0 0 None None));
    discriminate.
Defined.

(** ** TestNG: a document without the root element *)

(** C9. When the parsed XML has no [testng-results] root, the TestNG
    conversion rejects with a message that names the missing root
    element, and nothing is done to the file system: neither the
    directory is made nor the report written. *)
Theorem missing_root_rejects (Date_getTime : string → option Z)
    (toLowerCase : string → string)
    (path_resolve path_dirname : string → string)
    (ensureDir : string → option exn)
    (outputJson : ∀ T : Type, string → CtrfReport.t T → option exn)
    (result : document)
    (outputPath toolName : option string) (envProps : option (list string)) :
  lacks_root "testng-results" result →
  ∃ e,
    TestNG.convertTestngToCTRF Date_getTime toLowerCase path_resolve
      path_dirname ensureDir outputJson
      (Parsed result) outputPath toolName envProps = ([], Rejected e)
    ∧ mentions "testng-results" (exn_message e) = true
    ∧ (is_Some result →
       e = Error "Invalid TestNG report format: missing testng-results").
Proof.
  intros H. destruct result as [[root n]|]; simpl in H.
  - exists (Error "Invalid TestNG report format: missing testng-results").
    unfold TestNG.convertTestngToCTRF, TestNG.parseTestNGReport, TestNG.extract.
    simpl. apply String.eqb_neq in H. rewrite H. simpl. by repeat split.
  - eexists. split; [reflexivity|]. split; [by vm_compute|].
    intros [? ?]; discriminate.
Qed.

Lemma missing_root_rejects_witness :
  ∃ e,
    TestNG.convertTestngToCTRF (λ _, None) toLowerCase_ascii id id
      mkdir_fine write_fine
      (Parsed (junit_document [testcase_t "0.1" []])) None None None
    = ([], Rejected e)
    ∧ mentions "testng-results" (exn_message e) = true
    ∧ (is_Some (junit_document [testcase_t "0.1" []]) →
       e = Error "Invalid TestNG report format: missing testng-results").
Proof.
  apply (missing_root_rejects (λ _, None) toLowerCase_ascii id id
           mkdir_fine write_fine
           (junit_document [testcase_t "0.1" []]) None None None).
  simpl. discriminate.
Defined.

(** ** TestNG: when the report is accepted *)

Lemma testng_resolved_inv (Date_getTime : string → option Z)
    (toLowerCase : string → string) (result : document)
    (testCases : list TestNG.TestNGTestCase.t) (results : TestNG.TestNGResults.t) :
  TestNG.parseTestNGReport Date_getTime toLowerCase (Parsed result)
  = Resolved (testCases, results) →
  ∃ root suite,
    result = Some ("testng-results", root)
    ∧ first_child "suite" root = Some suite
    ∧ node_truthy suite = true
    ∧ TestNG.parseResults Date_getTime root suite = Ok results
    ∧ testCases = TestNG.walk Date_getTime toLowerCase suite.
Proof.
  unfold TestNG.parseTestNGReport, TestNG.extract.
  destruct result as [[root n]|]; simpl; [|discriminate].
  destruct (String.eqb root "testng-results") eqn:Hroot; simpl; [|discriminate].
  apply String.eqb_eq in Hroot as ->.
  destruct (node_truthy n); simpl; [|discriminate].
  destruct (first_child "suite" n) as [suite|] eqn:Hf; simpl; [|discriminate].
  destruct (node_truthy suite) eqn:Hs; simpl; [|discriminate].
  destruct (TestNG.parseResults Date_getTime n suite) as [r|e] eqn:Hr; simpl;
    [|discriminate].
  intros [= <- <-]. by exists n, suite.
Qed.

(** With an attribute bag on the root, each count of the summary is the
    integer read from the attribute of that name, 0 when there is none
    to read; [pending] is 0 and [other] is the [ignored] count; the test
    list plays no part. *)
Lemma testng_summary_from_root (Date_getTime : string → option Z)
    (toLowerCase : string → string)
    (result : document) (testCases : list TestNG.TestNGTestCase.t)
    (results : TestNG.TestNGResults.t) :
  TestNG.parseTestNGReport Date_getTime toLowerCase (Parsed result)
  = Resolved (testCases, results) →
  ∃ root a,
    result = Some ("testng-results", root) ∧ node_attrs root = Some a ∧
    ∀ anyCases toolName envProps,
      let s := CtrfReport.summary
                 (TestNG.createCTRFReport anyCases results toolName envProps) in
      Summary.tests s = num_or_zero (parseInt (assoc "total" a))
      ∧ Summary.passed s = num_or_zero (parseInt (assoc "passed" a))
      ∧ Summary.failed s = num_or_zero (parseInt (assoc "failed" a))
      ∧ Summary.skipped s = num_or_zero (parseInt (assoc "skipped" a))
      ∧ Summary.other s = num_or_zero (parseInt (assoc "ignored" a))
      ∧ Summary.pending s = Num 0.
Proof.
  intros H. apply testng_resolved_inv in H as (root & suite & -> & _ & _ & Hr & _).
  unfold TestNG.parseResults in Hr.
  destruct (node_attrs root) as [a|] eqn:Ha; [|discriminate].
  injection Hr as <-. exists root, a. by repeat split.
Qed.

Lemma num_or_zero_NaN (v : option string) :
  parseInt v = NaN → num_or_zero (parseInt v) = Num 0.
Proof. by intros ->. Qed.

(** C2. The counts of the summary are read with
    [parseInt(testngResults.$[...], 10) || 0]; on a root element that
    carries no attribute at all [testngResults.$] is [undefined], the
    read throws, and the conversion rejects without writing anything,
    instead of reporting every count as 0. *)
Theorem root_without_attributes_rejects (Date_getTime : string → option Z)
    (toLowerCase : string → string)
    (path_resolve path_dirname : string → string)
    (ensureDir : string → option exn)
    (outputJson : ∀ T : Type, string → CtrfReport.t T → option exn)
    (outputPath toolName : option string) (envProps : option (list string)) :
  TestNG.convertTestngToCTRF Date_getTime toLowerCase path_resolve
    path_dirname ensureDir outputJson
    (Parsed (testng_document None [suite_S [method_login]]))
    outputPath toolName envProps
  = ([], Rejected (Error
       "Failed to parse TestNG report: Cannot read properties of undefined (reading 'total')")).
Proof. reflexivity. Qed.

(** ** JUnit: the status of one test case *)

Lemma parseTestCase_spec (suiteName : option string)
    (testCases : list JUnit.JUnitTestCase.t) (testCase : node) :
  JUnit.parseTestCase suiteName testCases testCase
  = if has_attrs testCase
    then Ok (testCases ++ [testCase_of suiteName testCase])
    else Throw destructure_error.
Proof.
  unfold JUnit.parseTestCase, has_attrs, testCase_of.
  by destruct (node_attrs testCase).
Qed.

(** What the code derives: [failed] exactly when the failure or the
    error element yields a non-empty text. *)
Lemma junit_status_by_text (suiteName : option string) (testCase : node) :
  CtrfTest.status (JUnit.convertToCTRFTest (testCase_of suiteName testCase))
  = if str_truthy (failure_text testCase) then State.failed
    else if bool_decide (is_Some (node_child "skipped" testCase)) then State.skipped
    else State.passed.
Proof.
  unfold JUnit.convertToCTRFTest, failure_text, JUnit.or_else; simpl.
  destruct (str_truthy (JUnit.element_text "failure" testCase)) eqn:Hf; simpl.
  - by rewrite Hf.
  - by destruct (str_truthy (JUnit.element_text "error" testCase)).
Qed.

(** A failure or error element with text makes the test [failed],
    whatever else the test case holds. *)
Lemma junit_failed_when_text (suiteName : option string) (testCase : node)
    (k s : string) :
  k = "failure" ∨ k = "error" →
  JUnit.element_text k testCase = Some s → s ≠ "" →
  CtrfTest.status (JUnit.convertToCTRFTest (testCase_of suiteName testCase))
  = State.failed.
Proof.
  intros Hk Ht Hs. rewrite junit_status_by_text.
  assert (str_truthy (Some s) = true) as Hts.
  { simpl. apply String.eqb_neq in Hs. by rewrite Hs. }
  unfold failure_text, JUnit.or_else.
  destruct Hk as [-> | ->]; rewrite Ht.
  - by rewrite !Hts.
  - destruct (str_truthy (JUnit.element_text "failure" testCase)) eqn:Hf;
      by rewrite ?Hf, ?Hts.
Qed.

(** C1. A test case whose [failure] child has attributes but no text
    ([<failure message="boom"/>]) has a failure child element, yet the
    converter reports it [passed]: the extraction keeps only the text
    of the element, and the status is derived from that text. *)
Theorem failure_without_text_reported_passed :
  let testCase := testcase_t "0.1" [("failure", [failure_without_text])] in
  is_Some (node_child "failure" testCase) ∧
  ∃ testCases,
    JUnit.parseJUnitReport (Parsed (junit_document [testCase])) = Resolved testCases
    ∧ map CtrfTest.status
          (CtrfReport.tests (JUnit.createCTRFReport testCases None ∅))
      = [State.passed].
Proof. split; [by eexists|]. eexists. split; reflexivity. Qed.

(** ** TestNG: which methods become tests *)

Section Walk.
Variable Date_getTime : string → option Z.
Variable toLowerCase : string → string.

Lemma foldl_eachMethod (test : node) (methods : list node) :
  ∀ testCases,
    foldl (TestNG.eachMethod Date_getTime toLowerCase test) testCases methods
    = testCases ++ omap (kept Date_getTime toLowerCase) (map (pair test) methods).
Proof.
  induction methods as [|m methods IH]; intros acc; simpl.
  - by rewrite app_nil_r.
  - rewrite IH. unfold TestNG.eachMethod, kept; simpl.
    destruct (TestNG.parseMethod Date_getTime toLowerCase test m) as [[tc|]|e]; simpl;
      by rewrite <- ?app_assoc.
Qed.

Lemma foldl_eachClass (test : node) (classes : list node) :
  ∀ testCases,
    foldl (TestNG.eachClass Date_getTime toLowerCase test) testCases classes
    = testCases
      ++ omap (kept Date_getTime toLowerCase)
           (flat_map (λ classObj,
                        map (pair test) (default [] (node_child "test-method" classObj)))
                     classes).
Proof.
  induction classes as [|c classes IH]; intros acc; simpl.
  - by rewrite app_nil_r.
  - rewrite IH, omap_app, app_assoc. f_equal.
    unfold TestNG.eachClass.
    destruct (node_child "test-method" c) as [methods|]; simpl.
    + apply foldl_eachMethod.
    + by rewrite app_nil_r.
Qed.

Lemma foldl_eachTest (tests : list node) :
  ∀ testCases,
    foldl (TestNG.eachTest Date_getTime toLowerCase) testCases tests
    = testCases ++ omap (kept Date_getTime toLowerCase) (flat_map test_methods tests).
Proof.
  induction tests as [|t tests IH]; intros acc; simpl.
  - by rewrite app_nil_r.
  - rewrite IH, omap_app, app_assoc. f_equal.
    unfold TestNG.eachTest, test_methods.
    destruct (node_child "class" t) as [classes|]; simpl.
    + apply foldl_eachClass.
    + by rewrite app_nil_r.
Qed.

(** The array the walk fills: the kept methods of the suite, in order. *)
Lemma walk_kept (suite : node) :
  TestNG.walk Date_getTime toLowerCase suite
  = omap (kept Date_getTime toLowerCase) (suite_methods suite).
Proof.
  unfold TestNG.walk, suite_methods.
  destruct (node_child "test" suite) as [tests|]; simpl; [|done].
  apply (foldl_eachTest tests []).
Qed.

(** A method with attributes inside a test with attributes is dropped
    exactly when it is a configuration method. *)
Lemma kept_when_attrs (tm : node * node) :
  has_attrs tm.1 = true → has_attrs tm.2 = true →
  if is_config tm.2 then kept Date_getTime toLowerCase tm = None
  else is_Some (kept Date_getTime toLowerCase tm).
Proof.
  destruct tm as [test method]; unfold has_attrs, is_config, kept,
    TestNG.parseMethod; simpl.
  destruct (node_attrs method) as [m|]; [|done].
  destruct (node_attrs test) as [t|]; [|done]. intros _ _. simpl.
  destruct (bool_decide (assoc "is_config" m = Some "true")); [done|by eexists].
Qed.

Lemma kept_test_of_method (tm : node * node) (testCase : TestNG.TestNGTestCase.t) :
  kept Date_getTime toLowerCase tm = Some testCase →
  test_of_method Date_getTime toLowerCase tm (TestNG.convertToCTRFTest testCase).
Proof.
  unfold kept, test_of_method.
  destruct (TestNG.parseMethod Date_getTime toLowerCase tm.1 tm.2) as [[tc|]|e];
    try done.
  intros [= ->]. by exists testCase.
Qed.

(** The output tests against the methods walked: the methods that are
    kept, one test each, in order. *)
Lemma tests_of_kept_methods (l : list (node * node)) :
  Forall2 (test_of_method Date_getTime toLowerCase)
    (filter (λ tm, is_Some (kept Date_getTime toLowerCase tm)) l)
    (map TestNG.convertToCTRFTest (omap (kept Date_getTime toLowerCase) l)).
Proof.
  induction l as [|tm l IH]; simpl; [constructor|].
  rewrite filter_cons.
  destruct (kept Date_getTime toLowerCase tm) as [tc|] eqn:Hk; simpl.
  - constructor; [by apply kept_test_of_method | exact IH].
  - exact IH.
Qed.

Lemma filter_not_config (l : list (node * node)) :
  Forall (λ tm, has_attrs tm.1 = true ∧ has_attrs tm.2 = true) l →
  filter (λ tm, is_Some (kept Date_getTime toLowerCase tm)) l
  = filter (λ tm, is_config tm.2 = false) l.
Proof.
  induction 1 as [|tm l [H1 H2] _ IH]; [done|].
  rewrite !filter_cons, IH.
  pose proof (kept_when_attrs tm H1 H2) as Hk.
  destruct (is_config tm.2).
  - rewrite Hk. rewrite decide_False by (by intros [? ?]).
    by rewrite decide_False.
  - by rewrite !decide_True.
Qed.

End Walk.

(** C3. For every TestNG report that is accepted and in which every
    test and test-method element of the first suite carries attributes,
    the output test list is made of the test-methods of the first
    [suite] element: each of them whose [is_config] attribute is the
    string [true] is absent, and every other one appears exactly once,
    in document order. *)
Theorem first_suite_methods_once (Date_getTime : string → option Z)
    (toLowerCase : string → string)
    (result : document) (testCases : list TestNG.TestNGTestCase.t)
    (results : TestNG.TestNGResults.t) (toolName : option string)
    (envProps : gmap string (option string)) :
  TestNG.parseTestNGReport Date_getTime toLowerCase (Parsed result)
  = Resolved (testCases, results) →
  Forall (λ tm, has_attrs tm.1 = true ∧ has_attrs tm.2 = true)
         (first_suite_methods result) →
  Forall2 (test_of_method Date_getTime toLowerCase)
    (filter (λ tm, is_config tm.2 = false) (first_suite_methods result))
    (CtrfReport.tests
       (TestNG.createCTRFReport testCases results toolName envProps)).
Proof.
  intros H Hvalid.
  apply testng_resolved_inv in H as (root & suite & -> & Hsuite & _ & _ & ->).
  simpl in *. rewrite Hsuite in *. simpl in *.
  rewrite walk_kept, <- (filter_not_config Date_getTime toLowerCase) by done.
  apply tests_of_kept_methods.
Qed.

Lemma first_suite_methods_once_witness :
  let result :=
    testng_document (Some counts_2_1_1)
      [suite_S [method_setup; method_login; method_skewed]] in
  ∃ testCases results,
    TestNG.parseTestNGReport (λ _, None) toLowerCase_ascii (Parsed result)
    = Resolved (testCases, results)
    ∧ Forall2 (test_of_method (λ _, None) toLowerCase_ascii)
        [(test_T [method_setup; method_login; method_skewed], method_login);
         (test_T [method_setup; method_login; method_skewed], method_skewed)]
        (CtrfReport.tests (TestNG.createCTRFReport testCases results None ∅)).
Proof.
  eexists _, _. split; [reflexivity|].
  apply (first_suite_methods_once (λ _, None) toLowerCase_ascii
           (testng_document (Some counts_2_1_1)
              [suite_S [method_setup; method_login; method_skewed]])).
  - reflexivity.
  - repeat constructor.
Defined.

(** A report with two [suite] elements, one ordinary method in each:
    both are test-methods of the report and neither is a configuration
    method, but only the first becomes a test. *)
Lemma later_suites_not_walked :
  let result :=
    testng_document (Some counts_2_1_1)
      [suite_S [method_login]; suite_S [method_skewed]] in
  ∃ testCases results,
    TestNG.parseTestNGReport (λ _, None) toLowerCase_ascii (Parsed result)
    = Resolved (testCases, results)
    ∧ Forall (λ tm, has_attrs tm.1 = true ∧ has_attrs tm.2 = true)
             (report_methods result)
    ∧ filter (λ tm, is_config tm.2 = false) (report_methods result)
      = [(test_T [method_login], method_login);
         (test_T [method_skewed], method_skewed)]
    ∧ map CtrfTest.name
          (CtrfReport.tests (TestNG.createCTRFReport testCases results None ∅))
      = ["T: login"]
    ∧ ¬ Forall2 (test_of_method (λ _, None) toLowerCase_ascii)
          (filter (λ tm, is_config tm.2 = false) (report_methods result))
          (CtrfReport.tests (TestNG.createCTRFReport testCases results None ∅)).
Proof.
  eexists _, _. split; [reflexivity|]. split; [repeat constructor|].
  split; [reflexivity|]. split; [reflexivity|].
  intros H. apply Forall2_length in H. discriminate H.
Qed.

(** ** JUnit: the test cases of a report *)

Lemma testcases_unfold (a : option attrbag) (c : option string)
    (children : list (string * list node)) :
  testcases (NObj a c children)
  = default [] (assoc "testcase" children)
    ++ flat_map testcases (default [] (assoc "testsuite" children)).
Proof.
  simpl. f_equal.
  induction children as [|[k l] cs IH]; simpl; [done|].
  destruct (String.eqb k "testsuite"); simpl; [|exact IH].
  clear IH. induction l as [|n l IH]; simpl; [done|]. by rewrite IH.
Qed.

Lemma parseTestSuite_unfold (a : option attrbag) (c : option string)
    (children : list (string * list node)) (suiteName : option string)
    (testCases : list JUnit.JUnitTestCase.t) :
  JUnit.parseTestSuite (NObj a c children) suiteName testCases
  = testCases ← forEach (JUnit.parseTestCase suiteName)
                        (default [] (assoc "testcase" children)) testCases;
    forEach (λ testCases nestedSuite,
               JUnit.parseTestSuite nestedSuite suiteName testCases)
            (default [] (assoc "testsuite" children)) testCases.
Proof.
  simpl.
  assert (∀ acc,
    match assoc "testcase" children with
    | Some l => forEach (JUnit.parseTestCase suiteName) l acc
    | None => Ok acc
    end = forEach (JUnit.parseTestCase suiteName)
            (default [] (assoc "testcase" children)) acc) as ->.
  { intros acc. by destruct (assoc "testcase" children). }
  destruct (forEach (JUnit.parseTestCase suiteName)
              (default [] (assoc "testcase" children)) testCases) as [acc|e];
    simpl; [|done].
  induction children as [|[k l] cs IH]; simpl; [done|].
  destruct (String.eqb k "testsuite"); simpl; [|exact IH].
  clear IH. revert acc. induction l as [|n l IH]; intros acc; simpl; [done|].
  destruct (JUnit.parseTestSuite n suiteName acc); simpl; [apply IH|done].
Qed.

Lemma forEach_parseTestCase (suiteName : option string) (l : list node) :
  ∀ testCases,
    forEach (JUnit.parseTestCase suiteName) l testCases
    = if forallb has_attrs l
      then Ok (testCases ++ map (testCase_of suiteName) l)
      else Throw destructure_error.
Proof.
  induction l as [|x l IH]; intros acc; simpl.
  - by rewrite app_nil_r.
  - rewrite parseTestCase_spec. destruct (has_attrs x); simpl; [|done].
    rewrite IH. destruct (forallb has_attrs l); [|done].
    by rewrite <- app_assoc.
Qed.

Lemma forEach_nested (suiteName : option string) (l : list node) :
  Forall parseTestSuite_pushes l →
  ∀ testCases,
    forEach (λ testCases nestedSuite,
               JUnit.parseTestSuite nestedSuite suiteName testCases) l testCases
    = if forallb has_attrs (flat_map testcases l)
      then Ok (testCases ++ map (testCase_of suiteName) (flat_map testcases l))
      else Throw destructure_error.
Proof.
  induction 1 as [|n l Hn _ IH]; intros acc; simpl.
  - by rewrite app_nil_r.
  - rewrite Hn, forallb_app, map_app.
    destruct (forallb has_attrs (testcases n)); simpl; [|done].
    rewrite IH. destruct (forallb has_attrs (flat_map testcases l)); [|done].
    by rewrite app_assoc.
Qed.

(** [parseTestSuite] pushes one record for each test case of the suite,
    nested ones included, or throws when one of them has no attribute. *)
Lemma parseTestSuite_spec (suite : node) : parseTestSuite_pushes suite.
Proof.
  induction suite as [s|a c children IH] using node_ind; intros nm acc.
  - simpl. by rewrite app_nil_r.
  - rewrite parseTestSuite_unfold, testcases_unfold, forEach_parseTestCase.
    rewrite forallb_app, map_app.
    assert (Forall parseTestSuite_pushes (default [] (assoc "testsuite" children)))
      as Hnested.
    { clear -IH. induction IH as [|[k l] cs Hl _ IHcs]; simpl; [constructor|].
      destruct (String.eqb k "testsuite"); [exact Hl|exact IHcs]. }
    destruct (forallb has_attrs (default [] (assoc "testcase" children)));
      simpl; [|done].
    rewrite (forEach_nested nm _ Hnested).
    destruct (forallb has_attrs
                (flat_map testcases (default [] (assoc "testsuite" children))));
      [|done].
    by rewrite app_assoc.
Qed.

Lemma forEach_parseTopSuite (suites : list node) :
  ∀ testCases testCases',
    forEach JUnit.parseTopSuite suites testCases = Ok testCases' ↔
    forallb (λ suite, has_attrs suite && forallb has_attrs (testcases suite))
            suites = true
    ∧ testCases'
      = testCases
        ++ flat_map (λ suite, map (testCase_of (node_attrs suite ≫= assoc "name"))
                                  (testcases suite)) suites.
Proof.
  induction suites as [|suite suites IH]; intros acc acc'.
  - simpl. rewrite app_nil_r. split; [by intros [= ->]|by intros [_ ->]].
  - cbn [forEach forallb flat_map].
    assert (JUnit.parseTopSuite acc suite
            = match node_attrs suite with
              | None => Throw (TypeError (cannot_read "undefined" "name"))
              | Some a => JUnit.parseTestSuite suite (assoc "name" a) acc
              end) as -> by reflexivity.
    unfold has_attrs at 1.
    destruct (node_attrs suite) as [a|].
    + rewrite parseTestSuite_spec.
      destruct (forallb has_attrs (testcases suite)); simpl.
      * rewrite IH, app_assoc. done.
      * split; [done|]. by intros [? _].
    + simpl. split; [done|]. by intros [? _].
Qed.

(** [parseJUnitReport] resolves exactly on the well-formed documents,
    with one record for each test case, in the order of the walk. *)
Lemma junit_resolved_iff (result : document)
    (testCases : list JUnit.JUnitTestCase.t) :
  JUnit.parseJUnitReport (Parsed result) = Resolved testCases ↔
  junit_well_formed result = true
  ∧ testCases = map (λ st, testCase_of st.1 st.2) (report_testcases result).
Proof.
  unfold JUnit.parseJUnitReport, JUnit.extract, junit_well_formed, report_testcases.
  destruct result as [[root n]|]; simpl; [|split; [done|by intros [? _]]].
  destruct (String.eqb root "testsuites"); simpl; [|split; [done|by intros [? _]]].
  destruct (node_child "testsuite" n) as [suites|]; simpl;
    [|split; [done|by intros [? _]]].
  destruct (forEach JUnit.parseTopSuite suites []) as [tcs|e] eqn:Hf.
  - apply forEach_parseTopSuite in Hf as [Hwf ->]. simpl. rewrite Hwf.
    assert (∀ l : list node,
      map (λ st : option string * node, testCase_of st.1 st.2)
          (flat_map (λ suite, map (pair (node_attrs suite ≫= assoc "name"))
                                  (testcases suite)) l)
      = flat_map (λ suite, map (testCase_of (node_attrs suite ≫= assoc "name"))
                               (testcases suite)) l) as ->.
    { induction l as [|x l IHl]; simpl; [done|].
      by rewrite map_app, IHl, map_map. }
    split; [by intros [= ->]|by intros [_ ->]].
  - split; [done|]. intros [Hwf ->].
    pose proof (proj2 (forEach_parseTopSuite suites [] _) (conj Hwf eq_refl)) as Hok.
    rewrite Hf in Hok. discriminate.
Qed.

(** C4. For every JUnit report, the output list holds exactly one test
    for each [testcase] element of the top-level [testsuite] elements,
    nested suites at every depth included, so that the number of output
    tests is the number of those elements. *)
Theorem junit_one_test_per_testcase (result : document) :
  junit_well_formed result = true →
  ∃ testCases,
    JUnit.parseJUnitReport (Parsed result) = Resolved testCases
    ∧ ∀ toolName envProps,
        let tests :=
          CtrfReport.tests (JUnit.createCTRFReport testCases toolName envProps) in
        tests = map (λ st, JUnit.convertToCTRFTest (testCase_of st.1 st.2))
                    (report_testcases result)
        ∧ List.length tests = List.length (report_testcases result).
Proof.
  intros Hwf. eexists. split; [by apply junit_resolved_iff|].
  intros tool env. simpl. rewrite map_map. split; [done|].
  by rewrite length_map.
Qed.

Lemma junit_one_test_per_testcase_witness :
  ∃ testCases,
    JUnit.parseJUnitReport (Parsed nested_document) = Resolved testCases
    ∧ ∀ toolName envProps,
        let tests :=
          CtrfReport.tests (JUnit.createCTRFReport testCases toolName envProps) in
        tests = map (λ st, JUnit.convertToCTRFTest (testCase_of st.1 st.2))
                    (report_testcases nested_document)
        ∧ List.length tests = 3%nat.
Proof.
  apply (junit_one_test_per_testcase nested_document). reflexivity.
Defined.

(** ** JUnit: message and trace *)

(** The trace is the message: both are the failure text, or failing
    that the error text. *)
Lemma junit_trace_is_message (testCase : JUnit.JUnitTestCase.t) :
  CtrfTest.trace (JUnit.convertToCTRFTest testCase)
  = CtrfTest.message (JUnit.convertToCTRFTest testCase).
Proof. reflexivity. Qed.

(** Without a failure and without an error element there is neither a
    message nor a trace. *)
Lemma junit_no_element_no_message (suiteName : option string) (testCase : node) :
  node_child "failure" testCase = None → node_child "error" testCase = None →
  CtrfTest.message (JUnit.convertToCTRFTest (testCase_of suiteName testCase)) = None
  ∧ CtrfTest.trace (JUnit.convertToCTRFTest (testCase_of suiteName testCase)) = None.
Proof.
  intros Hf He.
  unfold JUnit.convertToCTRFTest, testCase_of, JUnit.element_text, first_child; simpl.
  by rewrite Hf, He.
Qed.

(** C10. A test case whose [failure] child has attributes but no text
    ([<failure message="boom"/>]) has a failure element, yet its output
    test carries neither a message nor a trace: the extraction keeps
    only the text of the element, and both fields are taken from that
    text. *)
Theorem failure_without_text_no_message :
  let testCase := testcase_t "0.1" [("failure", [failure_without_text])] in
  is_Some (node_child "failure" testCase)
  ∧ ∃ testCases,
      JUnit.parseJUnitReport (Parsed (junit_document [testCase])) = Resolved testCases
      ∧ map (λ out, (CtrfTest.message out, CtrfTest.trace out))
            (CtrfReport.tests (JUnit.createCTRFReport testCases None ∅))
        = [(None, None)].
Proof. split; [by eexists|]. eexists. split; reflexivity. Qed.

(** ** Numbers: signs and integers *)











(** ** JUnit: the duration *)

Lemma Math_round_ties_up (p : Q) :
  nearest_ties_up p (Qfloor (p + (1 # 2))).
Proof.
  pose proof (Qfloor_le (p + (1 # 2))) as H1.
  pose proof (Qlt_floor (p + (1 # 2))) as H2.
  rewrite inject_Z_plus in H2. change (inject_Z 1) with 1%Q in H2.
  unfold nearest_ties_up. split; lra.
Qed.

Lemma ties_up_away_nonneg (p : Q) (d : Z) :
  (0 <= p)%Q → nearest_ties_up p d → nearest_ties_away p d.
Proof.
  intros Hp [H1 H2]. split.
  - apply Qabs_Qle_condition. split; lra.
  - intros Htie.
    assert (inject_Z d - p == 1 # 2)%Q as Hd.
    { revert Htie. apply Qabs_case; intros ? ?; lra. }
    rewrite (Qabs_pos p) by done. rewrite Qabs_pos by lra. lra.
Qed.

Lemma ties_up_nonneg (p : Q) (d : Z) :
  (0 <= p)%Q → nearest_ties_up p d → 0 <= d.
Proof.
  intros Hp [H1 _].
  assert (- (1 # 2) < inject_Z d)%Q as H by lra.
  unfold Qlt in H; simpl in H. lia.
Qed.

(** C6. For every JUnit test case whose time, read by [parseFloat] and
    multiplied by 1000, is finite, the duration is that product rounded
    to a nearest integer, the upper one of two equally near
    ([Math.round]); for a product that is not negative this is the
    rounding with ties away from zero.  The time [1.234] gives 1234
    and the time [0] gives 0. *)
Theorem junit_duration_rounding :
  (∀ (testCase : JUnit.JUnitTestCase.t) (p : Q),
     num_mul (parseFloat (JUnit.JUnitTestCase.time testCase)) (Num 1000) = Num p →
     ∃ d : Z,
       CtrfTest.duration (JUnit.convertToCTRFTest testCase) = Num (inject_Z d)
       ∧ nearest_ties_up p d
       ∧ ((0 <= p)%Q → nearest_ties_away p d))
  ∧ (∀ testCase, JUnit.JUnitTestCase.time testCase = Some "1.234" →
       CtrfTest.duration (JUnit.convertToCTRFTest testCase) = Num 1234)
  ∧ (∀ testCase, JUnit.JUnitTestCase.time testCase = Some "0" →
       CtrfTest.duration (JUnit.convertToCTRFTest testCase) = Num 0).
Proof.
  split; [|split].
  - intros testCase p Hp. exists (Qfloor (p + (1 # 2))).
    unfold JUnit.convertToCTRFTest; simpl. rewrite Hp. simpl.
    split; [done|]. split; [apply Math_round_ties_up|].
    intros H. apply ties_up_away_nonneg; [done|apply Math_round_ties_up].
  - intros testCase H. unfold JUnit.convertToCTRFTest; simpl. rewrite H.
    by vm_compute.
  - intros testCase H. unfold JUnit.convertToCTRFTest; simpl. rewrite H.
    by vm_compute.
Qed.

Lemma junit_duration_rounding_witness :
  ∃ d : Z,
    CtrfTest.duration
      (JUnit.convertToCTRFTest (testCase_of (Some "S") (testcase_t "0.0625" [])))
    = Num (inject_Z d)
    ∧ nearest_ties_up (125 # 2) d
    ∧ ((0 <= 125 # 2)%Q → nearest_ties_away (125 # 2) d).
Proof.
  apply (proj1 junit_duration_rounding
           (testCase_of (Some "S") (testcase_t "0.0625" [])) (125 # 2)).
  vm_compute. reflexivity.
Defined.

(** The time [-0.0625]: the product is -62.5, exactly, and the duration
    is -62, the upper neighbour, not -63, the one away from zero. *)
Lemma negative_tie_rounds_up :
  let testCase := testCase_of (Some "S") (testcase_t "-0.0625" []) in
  JUnit.parseTestCase (Some "S") [] (testcase_t "-0.0625" []) = Ok [testCase]
  ∧ num_mul (parseFloat (JUnit.JUnitTestCase.time testCase)) (Num 1000)
    = Num (-125 # 2)
  ∧ CtrfTest.duration (JUnit.convertToCTRFTest testCase) = Num (inject_Z (-62))
  ∧ ¬ nearest_ties_away (-125 # 2) (-62).
Proof.
  split; [reflexivity|]. split; [by vm_compute|]. split; [by vm_compute|].
  intros [_ H].
  assert (Qabs (inject_Z (-62) - (-125 # 2)) == 1 # 2)%Q as Htie by reflexivity.
  specialize (H Htie). vm_compute in H. discriminate H.
Qed.

(** ** Durations that are non-negative integers *)

Lemma kept_iff (Date_getTime : string → option Z)
    (toLowerCase : string → string) (tm : node * node) :
  is_Some (kept Date_getTime toLowerCase tm) ↔ becomes_test tm = true.
Proof.
  destruct tm as [test method].
  unfold kept, becomes_test, has_attrs, is_config, TestNG.parseMethod; simpl.
  destruct (node_attrs method) as [m|]; simpl.
  - destruct (node_attrs test) as [t|]; simpl.
    + destruct (bool_decide (assoc "is_config" m = Some "true")); simpl.
      * split; [by intros [? ?]|done].
      * split; [done|]. intros _. by eexists.
    + destruct (bool_decide (assoc "is_config" m = Some "true")); simpl;
        (split; [by intros [? ?]|done]).
  - rewrite andb_false_r. split; [by intros [? ?]|done].
Qed.

Lemma kept_duration (Date_getTime : string → option Z)
    (toLowerCase : string → string) (tm : node * node)
    (testCase : TestNG.TestNGTestCase.t) :
  kept Date_getTime toLowerCase tm = Some testCase →
  CtrfTest.duration (TestNG.convertToCTRFTest testCase)
  = num_or_zero (parseInt (node_attrs tm.2 ≫= assoc "duration-ms")).
Proof.
  destruct tm as [test method]. unfold kept, TestNG.parseMethod; simpl.
  destruct (node_attrs method) as [m|]; [|done].
  destruct (bool_decide (assoc "is_config" m = Some "true")); [done|].
  destruct (node_attrs test) as [t|]; [|done].
  by intros [= <-].
Qed.







(** ** The two scenarios of the specification *)

Example five_methods_scenario :
  ∃ testCases results,
    TestNG.parseTestNGReport (λ _, None) toLowerCase_ascii (Parsed five_methods_document)
    = Resolved (testCases, results)
    ∧ let report := TestNG.createCTRFReport testCases results None ∅ in
      CtrfReport.summary report
      = Summary.mk (Num 5) (Num 3) (Num 1) (Num 0) (Num 1) (Num 0) 0 0
      ∧ map (λ t, (CtrfTest.name t, CtrfTest.status t, CtrfTest.message t))
            (CtrfReport.tests report)
        = [("T: a", State.passed, None); ("T: b", State.passed, None);
           ("T: c", State.passed, None);
           ("T: d", State.failed, Some (NStr "expected 1"));
           ("T: e", State.skipped, None)].
Proof. eexists _, _. split; [reflexivity|]. split; by vm_compute. Qed.

Example nested_suite_scenario :
  ∃ testCases,
    JUnit.parseJUnitReport (Parsed nested_document) = Resolved testCases
    ∧ let report := JUnit.createCTRFReport testCases None ∅ in
      CtrfReport.summary report
      = Summary.mk (Num 3) (Num 2) (Num 1) (Num 0) (Num 0) (Num 0) 0 0
      ∧ map (λ t, (CtrfTest.name t, CtrfTest.status t, CtrfTest.duration t))
            (CtrfReport.tests report)
        = [("Suite A: t", State.passed, Num 1234);
           ("Suite A: t", State.passed, Num 0);
           ("Suite A: t", State.failed, Num 500)].
Proof. eexists. split; [reflexivity|]. split; by vm_compute. Qed.

(** * Further properties of the converters *)

(** ** Pieces of a string *)

Lemma head_split (sep : ascii) (s : string) :
  head (split sep s) = Some (before_char sep s).
Proof.
  induction s as [|c s IH]; simpl; [done|].
  destruct (Ascii.eqb c sep); simpl; [done|].
  destruct (split sep s) as [|p ps]; simpl in *; [done|]. by injection IH as ->.
Qed.

Lemma before_char_no_sep (sep : ascii) (s : string) :
  has_char sep (before_char sep s) = false.
Proof.
  induction s as [|c s IH]; simpl; [done|].
  destruct (Ascii.eqb c sep) eqn:Hc; simpl; [done|]. by rewrite Hc.
Qed.

Lemma before_char_id (sep : ascii) (s : string) :
  has_char sep s = false → before_char sep s = s.
Proof.
  induction s as [|c s IH]; simpl; [done|].
  destruct (Ascii.eqb c sep); simpl; [done|]. intros H. by rewrite IH.
Qed.

Lemma before_space_idempotent (s : string) :
  TestNG.before_space (TestNG.before_space s) = TestNG.before_space s.
Proof.
  unfold TestNG.before_space. rewrite !head_split. simpl.
  apply before_char_id, before_char_no_sep.
Qed.

(** ** TestNG: dates *)

(** X1. [parseDate] on a string the [Date] constructor does not accept
    gives what it gives on the part of the string before its first
    space, and 0 when that part is not accepted either; on [undefined]
    it gives 0. *)
Theorem parseDate_falls_back (Date_getTime : string → option Z) (s : string) :
  Date_getTime s = None →
  TestNG.parseDate Date_getTime (Some s)
  = TestNG.parseDate Date_getTime (Some (TestNG.before_space s))
  ∧ (Date_getTime (TestNG.before_space s) = None →
     TestNG.parseDate Date_getTime (Some s) = 0)
  ∧ TestNG.parseDate Date_getTime None = 0.
Proof.
  intros H. unfold TestNG.parseDate. rewrite H, before_space_idempotent.
  split; [|split; [by intros ->|done]].
  by destruct (Date_getTime (TestNG.before_space s)).
Qed.

Lemma parseDate_falls_back_witness :
  TestNG.parseDate Date_only_day (Some "2024-01-01 10:00:00 UTC")
  = TestNG.parseDate Date_only_day (Some "2024-01-01")
  ∧ (Date_only_day (TestNG.before_space "2024-01-01 10:00:00 UTC") = None →
     TestNG.parseDate Date_only_day (Some "2024-01-01 10:00:00 UTC") = 0)
  ∧ TestNG.parseDate Date_only_day None = 0.
Proof.
  apply (parseDate_falls_back Date_only_day "2024-01-01 10:00:00 UTC").
  reflexivity.
Defined.

(** ** The environment mapping, in general *)

Lemma last_value_is_Some (k : string) (entries : list (list string)) :
  is_Some (last_value k entries) ↔ ∃ e, e ∈ entries ∧ template (e !! 0%nat) = k.
Proof.
  induction entries as [|e es IH] using rev_ind.
  - split; [by intros [? ?]|]. intros (e & He & _). by apply elem_of_nil in He.
  - rewrite last_value_app. destruct (decide (template (e !! 0%nat) = k)) as [Hk|Hk].
    + split; [|by eexists]. intros _. exists e. split; [|done].
      apply elem_of_app. right. by apply list_elem_of_singleton.
    + rewrite IH. split; intros (e' & He' & Hk').
      * exists e'. split; [|done]. apply elem_of_app. by left.
      * exists e'. split; [|done]. apply elem_of_app in He' as [?|He']; [done|].
        apply list_elem_of_singleton in He' as ->. done.
Qed.

Lemma key_of_property (p : string) :
  template (split "=" p !! 0%nat) = before_char "=" p.
Proof.
  pose proof (head_split "=" p) as H.
  destruct (split "=" p) as [|x xs]; simpl in *; [done|]. by injection H as ->.
Qed.

(** X2. The keys of the environment are the texts before the first
    [=] of the property strings: a key is present exactly when some
    property starts with it; without any property string, and without
    the option at all, the environment is empty. *)
Theorem environment_keys (props : list string) (k : string) :
  (is_Some (envPropsObj (Some props) !! k)
   ↔ ∃ p, p ∈ props ∧ before_char "=" p = k)
  ∧ envPropsObj (Some []) = ∅ ∧ envPropsObj None = ∅.
Proof.
  split; [|done]. unfold envPropsObj.
  rewrite fromEntries_lookup, last_value_is_Some. split.
  - intros (e & He & Hk). apply list_elem_of_fmap in He as (p & -> & Hp).
    exists p. split; [done|]. by rewrite <- key_of_property.
  - intros (p & Hp & Hk). exists (split "=" p). split.
    + apply list_elem_of_fmap. by exists p.
    + by rewrite key_of_property.
Qed.

Lemma environment_keys_witness :
  ∃ p, p ∈ ["appName=MyApp"; "buildName=MyBuild"] ∧ before_char "=" p = "buildName".
Proof.
  apply (proj1 (environment_keys ["appName=MyApp"; "buildName=MyBuild"] "buildName")).
  by eexists.
Defined.

(** X3. Adding a property string at the end sets the key it starts
    with to its second piece (the text between its first and second
    [=], [undefined] when it has no [=]) whatever the earlier properties
    said, and leaves every other key as it was. *)
Theorem environment_last_property (props : list string) (p k : string) :
  envPropsObj (Some (props ++ [p])) !! before_char "=" p
  = Some (split "=" p !! 1%nat)
  ∧ (k ≠ before_char "=" p →
     envPropsObj (Some (props ++ [p])) !! k = envPropsObj (Some props) !! k).
Proof.
  unfold envPropsObj. rewrite map_app. cbn [map].
  rewrite !fromEntries_lookup, !last_value_app, key_of_property. split.
  - by rewrite decide_True.
  - intros Hk. by rewrite decide_False.
Qed.

Lemma environment_last_property_witness :
  envPropsObj (Some (["appName=Old"; "build=7"] ++ ["appName=MyApp"])) !! "build"
  = envPropsObj (Some ["appName=Old"; "build=7"]) !! "build".
Proof.
  apply (environment_last_property ["appName=Old"; "build=7"] "appName=MyApp" "build").
  discriminate.
Defined.

(** X4. A property string without [=] becomes a key, the whole string,
    whose value is [undefined]. *)
Theorem property_without_equals (props : list string) (p : string) :
  has_char "=" p = false →
  envPropsObj (Some (props ++ [p])) !! p = Some None.
Proof.
  intros Hp. unfold envPropsObj. rewrite map_app. cbn [map].
  rewrite fromEntries_lookup, last_value_app, (split_no_sep _ _ Hp). simpl.
  by rewrite decide_True.
Qed.

Lemma property_without_equals_witness :
  envPropsObj (Some (["a=1"] ++ ["verbose"])) !! "verbose" = Some None.
Proof. apply (property_without_equals ["a=1"] "verbose"). reflexivity. Defined.

(** ** TestNG: which documents convert *)

Lemma testng_accepted_resolves (Date_getTime : string → option Z)
    (toLowerCase : string → string)
    (result : document) :
  testng_accepts result = true →
  ∃ testCases results,
    TestNG.parseTestNGReport Date_getTime toLowerCase (Parsed result)
    = Resolved (testCases, results).
Proof.
  destruct result as [[root n]|]; simpl; [|done].
  intros H. apply andb_prop in H as [H Hsuite]. apply andb_prop in H as [Hroot Hattrs].
  apply String.eqb_eq in Hroot as ->.
  unfold TestNG.parseTestNGReport, TestNG.extract, TestNG.parseResults; simpl.
  unfold has_attrs in Hattrs.
  destruct n as [s|a c cs]; simpl in *; [done|].
  destruct a as [a|]; [|done].
  destruct (first_child "suite" (NObj (Some a) c cs)) as [suite|]; simpl in *; [|done].
  rewrite Hsuite. simpl. by eexists _, _.
Qed.

Lemma testng_resolved_accepted (Date_getTime : string → option Z)
    (toLowerCase : string → string)
    (result : document) (r : list TestNG.TestNGTestCase.t * TestNG.TestNGResults.t) :
  TestNG.parseTestNGReport Date_getTime toLowerCase (Parsed result) = Resolved r →
  testng_accepts result = true.
Proof.
  destruct r as [tcs results]. intros H.
  apply testng_resolved_inv in H as (root & suite & -> & Hsuite & Ht & Hr & _).
  simpl. rewrite Hsuite. simpl. rewrite Ht.
  unfold TestNG.parseResults in Hr. unfold has_attrs.
  by destruct (node_attrs root).
Qed.

(** X5. The TestNG conversion resolves exactly when the root of the
    document is [testng-results], carries at least one attribute, and
    has a first [suite] child that is not an empty element, and both
    [ensureDir], on the directory of the output path, and [outputJson],
    of the report at the output path, resolve; nothing else about the
    document can make it fail. *)
Theorem testng_conversion_resolves_iff (Date_getTime : string → option Z)
    (toLowerCase : string → string)
    (path_resolve path_dirname : string → string)
    (ensureDir : string → option exn)
    (outputJson : ∀ T : Type, string → CtrfReport.t T → option exn)
    (result : document)
    (outputPath toolName : option string) (envProps : option (list string)) :
  let path := path_resolve (str_or outputPath "ctrf/ctrf-report.json") in
  (TestNG.convertTestngToCTRF Date_getTime toLowerCase path_resolve
     path_dirname ensureDir outputJson
     (Parsed result) outputPath toolName envProps).2 = Resolved tt
  ↔ testng_accepts result = true
    ∧ ensureDir (path_dirname path) = None
    ∧ ∃ report,
        testng_report Date_getTime toLowerCase (Parsed result) toolName envProps
        = Resolved report
        ∧ outputJson _ path report = None.
Proof.
  simpl. unfold TestNG.convertTestngToCTRF, testng_report.
  destruct (TestNG.parseTestNGReport Date_getTime toLowerCase (Parsed result))
    as [[tcs res]|e] eqn:Hp; simpl.
  - pose proof (testng_resolved_accepted _ _ _ _ Hp) as Hacc.
    destruct (ensureDir _) as [e1|]; simpl.
    { split; [done|]. by intros (_ & ? & _). }
    destruct (outputJson _ _ _) as [e2|] eqn:Hw; simpl.
    { split; [done|]. intros (_ & _ & report & [= <-] & Hw').
      rewrite Hw in Hw'. discriminate. }
    split; [|done]. intros _. split; [done|]. split; [done|]. by eexists.
  - split; [done|]. intros (H & _).
    destruct (testng_accepted_resolves Date_getTime toLowerCase result H)
      as (? & ? & H').
    rewrite Hp in H'. discriminate.
Qed.

Lemma testng_conversion_resolves_iff_witness :
  (TestNG.convertTestngToCTRF (λ _, None) toLowerCase_ascii id id
     mkdir_fine write_fine
     (Parsed (testng_document (Some [("total", "1")]) [suite_S [method_login]]))
     None None None).2 = Resolved tt
  ∧ ¬ (TestNG.convertTestngToCTRF (λ _, None) toLowerCase_ascii id id
         mkdir_fine write_read_only
         (Parsed (testng_document (Some [("total", "1")]) [suite_S [method_login]]))
         None None None).2 = Resolved tt.
Proof.
  split.
  - apply (testng_conversion_resolves_iff (λ _, None) toLowerCase_ascii id id
             mkdir_fine write_fine
             (testng_document (Some [("total", "1")]) [suite_S [method_login]])).
    split; [reflexivity|]. split; [reflexivity|]. by eexists.
  - intros H.
    apply (testng_conversion_resolves_iff (λ _, None) toLowerCase_ascii id id
             mkdir_fine write_read_only
             (testng_document (Some [("total", "1")]) [suite_S [method_login]]))
      in H.
    destruct H as (_ & _ & report & _ & H). discriminate H.
Defined.

(** X6. A [testng-results] root that is an empty element, without
    attribute or content, makes the conversion reject with the message
    that names the missing root; a root that is not empty, without a
    [suite] child or whose first [suite] child is an empty element,
    makes it reject with the message that names the missing suite.  In
    both cases no file-system call is made. *)
Theorem missing_suite_rejects (Date_getTime : string → option Z)
    (toLowerCase : string → string)
    (path_resolve path_dirname : string → string)
    (ensureDir : string → option exn)
    (outputJson : ∀ T : Type, string → CtrfReport.t T → option exn)
    (root : node)
    (outputPath toolName : option string) (envProps : option (list string)) :
  let conversion :=
    TestNG.convertTestngToCTRF Date_getTime toLowerCase path_resolve
      path_dirname ensureDir outputJson
      (Parsed (Some ("testng-results", root))) outputPath toolName envProps in
  (node_truthy root = false →
   conversion
   = ([], Rejected (Error "Invalid TestNG report format: missing testng-results")))
  ∧ (node_truthy root = true → truthy (first_child "suite" root) = false →
     conversion
     = ([], Rejected (Error "Invalid TestNG report format: missing suite"))).
Proof.
  simpl. split.
  - intros Hroot.
    unfold TestNG.convertTestngToCTRF, TestNG.parseTestNGReport, TestNG.extract.
    simpl. by rewrite Hroot.
  - intros Hroot Hsuite.
    unfold TestNG.convertTestngToCTRF, TestNG.parseTestNGReport, TestNG.extract.
    simpl. rewrite Hroot. simpl.
    destruct (first_child "suite" root) as [suite|]; simpl in *; [|done].
    by rewrite Hsuite.
Qed.

Lemma missing_suite_rejects_witness :
  TestNG.convertTestngToCTRF (λ _, None) toLowerCase_ascii id id
    mkdir_fine write_fine
    (Parsed (Some ("testng-results", NStr EmptyString))) None None None
  = ([], Rejected (Error "Invalid TestNG report format: missing testng-results"))
  ∧ TestNG.convertTestngToCTRF (λ _, None) toLowerCase_ascii id id
      mkdir_fine write_fine
      (Parsed (testng_document (Some counts_2_1_1) [NStr EmptyString]))
      None None None
    = ([], Rejected (Error "Invalid TestNG report format: missing suite")).
Proof.
  split.
  - apply (proj1 (missing_suite_rejects (λ _, None) toLowerCase_ascii id id
                    mkdir_fine write_fine (NStr EmptyString) None None None)).
    reflexivity.
  - apply (proj2 (missing_suite_rejects (λ _, None) toLowerCase_ascii id id
                    mkdir_fine write_fine
                    (NObj (Some counts_2_1_1) None [("suite", [NStr EmptyString])])
                    None None None));
      reflexivity.
Defined.


(** ** TestNG: the start and stop times *)

Lemma find_beforeSuite_methods (tests : list node) :
  TestNG.find_beforeSuite tests
  = find named_beforeSuite (map snd (flat_map test_methods tests)).
Proof.
  unfold TestNG.find_beforeSuite.
  assert (∀ l : list node,
    find (λ method, match node_attrs method with
                    | Some a => bool_decide (assoc "name" a = Some "beforeSuite")
                    | None => false
                    end) l
    = find named_beforeSuite l) as ->.
  { induction l as [|m l IH]; simpl; [done|]. rewrite IH.
    unfold named_beforeSuite. by destruct (node_attrs m). }
  f_equal. induction tests as [|t tests IH]; simpl; [done|].
  rewrite flat_map_app, map_app, IH. f_equal.
  unfold test_methods.
  induction (default [] (node_child "class" t)) as [|c cs IHc]; simpl; [done|].
  rewrite map_app, IHc, map_map. simpl. by rewrite map_id.
Qed.

(** X8. In the summary of a TestNG report the stop time is the parsed
    [finished-at] of the first suite, and the start time is the parsed
    [started-at] of the first test-method named [beforeSuite] among all
    the methods of that suite, configuration methods included, also
    when that method has no [started-at]; only without such a method is
    it the parsed [started-at] of the suite. *)
Theorem summary_start_and_stop (Date_getTime : string → option Z)
    (toLowerCase : string → string)
    (result : document) (testCases anyCases : list TestNG.TestNGTestCase.t)
    (results : TestNG.TestNGResults.t) (toolName : option string)
    (envProps : gmap string (option string)) :
  TestNG.parseTestNGReport Date_getTime toLowerCase (Parsed result)
  = Resolved (testCases, results) →
  ∃ suite,
    first_suite result = Some suite
    ∧ let s := CtrfReport.summary
                 (TestNG.createCTRFReport anyCases results toolName envProps) in
      Summary.stop s
      = TestNG.parseDate Date_getTime (node_attrs suite ≫= assoc "finished-at")
      ∧ Summary.start s
        = TestNG.parseDate Date_getTime
            (match find named_beforeSuite (map snd (suite_methods suite)) with
             | Some method => node_attrs method ≫= assoc "started-at"
             | None => node_attrs suite ≫= assoc "started-at"
             end).
Proof.
  intros H. apply testng_resolved_inv in H as (root & suite & -> & Hsuite & _ & Hr & _).
  exists suite. split; [done|].
  unfold TestNG.parseResults in Hr.
  destruct (node_attrs root); [|done]. injection Hr as <-. simpl.
  split; [done|]. f_equal. unfold TestNG.startedAt, suite_methods.
  destruct (node_child "test" suite) as [tests|]; simpl; [|done].
  by rewrite find_beforeSuite_methods.
Qed.

Lemma summary_start_and_stop_witness :
  ∃ suite,
    first_suite anonymous_test_document = Some suite
    ∧ let s := CtrfReport.summary
                 (TestNG.createCTRFReport []
                    (TestNG.TestNGResults.mk (Num 2) (Num 1) (Num 1) (Num 0) (Num 0)
                       1704067200000 1704067200000 "S") None ∅) in
      Summary.stop s
      = TestNG.parseDate Date_only_day (node_attrs suite ≫= assoc "finished-at")
      ∧ Summary.start s
        = TestNG.parseDate Date_only_day
            (match find named_beforeSuite (map snd (suite_methods suite)) with
             | Some method => node_attrs method ≫= assoc "started-at"
             | None => node_attrs suite ≫= assoc "started-at"
             end).
Proof.
  apply (summary_start_and_stop Date_only_day toLowerCase_ascii anonymous_test_document
           (TestNG.walk Date_only_day toLowerCase_ascii
              (NObj (Some [("name", "S"); ("started-at", "2024-01-01");
                           ("finished-at", "2024-01-01")]) None
                 [("test",
                   [test_T [method_setup; method_login];
                    NObj None None
                      [("class",
                        [NObj None None [("test-method", [method_skewed])]])]])]))).
  reflexivity.
Defined.

(** ** TestNG: the output tests *)

(** X9. Whatever the test cases, no output test of the TestNG
    converter has the status [pending], and none carries a message or
    a trace unless its status is [failed]; a message or trace that is
    present is never the empty string. *)
Theorem testng_tests_sound (testCases : list TestNG.TestNGTestCase.t)
    (results : TestNG.TestNGResults.t) (toolName : option string)
    (envProps : gmap string (option string)) :
  Forall testng_test_sound
    (CtrfReport.tests (TestNG.createCTRFReport testCases results toolName envProps)).
Proof.
  simpl. apply Forall_fmap, Forall_forall. intros tc _.
  unfold testng_test_sound, TestNG.convertToCTRFTest; simpl.
  set (st := if String.eqb _ "pass" then _ else _).
  assert (st ≠ State.pending) as Hst.
  { subst st. by repeat destruct (String.eqb _ _). }
  split; [done|].
  destruct (bool_decide (st = State.failed)) eqn:Hf; simpl.
  - apply bool_decide_eq_true in Hf. split; [done|].
    split.
    + destruct (truthy (TestNG.TestNGTestCase.message tc)) eqn:Hm; [|done].
      rewrite Hm. destruct (TestNG.TestNGTestCase.message tc); [|done].
      symmetry. apply bool_decide_eq_true. by eexists.
    + destruct (truthy (TestNG.TestNGTestCase.trace tc)) eqn:Hm; [|done].
      rewrite Hm. destruct (TestNG.TestNGTestCase.trace tc); [|done].
      symmetry. apply bool_decide_eq_true. by eexists.
  - split; [|done]. intros [[? ?]|[? ?]]; discriminate.
Qed.

(** X10. The output tests of an accepted TestNG report are, in
    document order, one for each test-method of the first suite that
    carries attributes, is not a configuration method, and lies in a
    test element that carries attributes; a method that fails one of
    these is left out without disturbing the others. *)
Theorem testng_tests_are_kept_methods (Date_getTime : string → option Z)
    (toLowerCase : string → string)
    (result : document) (testCases : list TestNG.TestNGTestCase.t)
    (results : TestNG.TestNGResults.t) (toolName : option string)
    (envProps : gmap string (option string)) :
  TestNG.parseTestNGReport Date_getTime toLowerCase (Parsed result)
  = Resolved (testCases, results) →
  Forall2 (test_of_method Date_getTime toLowerCase)
    (filter (λ tm, becomes_test tm = true) (first_suite_methods result))
    (CtrfReport.tests
       (TestNG.createCTRFReport testCases results toolName envProps)).
Proof.
  intros H.
  apply testng_resolved_inv in H as (root & suite & -> & Hsuite & _ & _ & ->).
  simpl. rewrite Hsuite. simpl. rewrite walk_kept.
  rewrite <- (list_filter_iff _ _ _ (kept_iff Date_getTime toLowerCase)).
  apply tests_of_kept_methods.
Qed.

Lemma testng_tests_are_kept_methods_witness :
  ∃ testCases results,
    TestNG.parseTestNGReport (λ _, None) toLowerCase_ascii (Parsed anonymous_test_document)
    = Resolved (testCases, results)
    ∧ Forall2 (test_of_method (λ _, None) toLowerCase_ascii)
        [(test_T [method_setup; method_login], method_login)]
        (CtrfReport.tests (TestNG.createCTRFReport testCases results None ∅)).
Proof.
  eexists _, _. split; [reflexivity|].
  apply (testng_tests_are_kept_methods (λ _, None) toLowerCase_ascii
           anonymous_test_document).
  reflexivity.
Defined.

Lemma num_or_zero_not_NaN (x : number) : num_or_zero x ≠ NaN.
Proof.
  unfold num_or_zero. destruct x as [|s|q]; simpl; [done..|].
  by destruct (Qeq_bool q 0).
Qed.

(** X11. In the report of an accepted TestNG document no count of
    the summary and no duration of a test is [NaN]: an attribute that
    is missing or is not a number counts as 0. *)
Theorem testng_numbers_not_NaN (Date_getTime : string → option Z)
    (toLowerCase : string → string)
    (result : document) (testCases : list TestNG.TestNGTestCase.t)
    (results : TestNG.TestNGResults.t) (toolName : option string)
    (envProps : gmap string (option string)) :
  TestNG.parseTestNGReport Date_getTime toLowerCase (Parsed result)
  = Resolved (testCases, results) →
  let report := TestNG.createCTRFReport testCases results toolName envProps in
  Forall (λ t, CtrfTest.duration t ≠ NaN) (CtrfReport.tests report)
  ∧ Forall (λ count, count ≠ NaN)
      [Summary.tests (CtrfReport.summary report);
       Summary.passed (CtrfReport.summary report);
       Summary.failed (CtrfReport.summary report);
       Summary.skipped (CtrfReport.summary report);
       Summary.pending (CtrfReport.summary report);
       Summary.other (CtrfReport.summary report)].
Proof.
  intros H.
  apply testng_resolved_inv in H as (root & suite & -> & Hsuite & _ & Hr & ->).
  simpl. split.
  - rewrite walk_kept.
    induction (suite_methods suite) as [|tm l IH]; simpl; [constructor|].
    destruct (kept Date_getTime toLowerCase tm) as [tc|] eqn:Hk; simpl; [|exact IH].
    constructor; [|exact IH].
    rewrite (kept_duration _ _ _ _ Hk). apply num_or_zero_not_NaN.
  - unfold TestNG.parseResults in Hr.
    destruct (node_attrs root); [|done]. injection Hr as <-. simpl.
    repeat constructor; try apply num_or_zero_not_NaN. done.
Qed.

Lemma testng_numbers_not_NaN_witness :
  ∃ testCases results,
    TestNG.parseTestNGReport (λ _, None) toLowerCase_ascii
      (Parsed (testng_document (Some [("total", "many")])
                 [suite_S [NObj (Some [("name", "m")]) None []]]))
    = Resolved (testCases, results)
    ∧ let report := TestNG.createCTRFReport testCases results None ∅ in
      Forall (λ t, CtrfTest.duration t ≠ NaN) (CtrfReport.tests report)
      ∧ Forall (λ count, count ≠ NaN)
          [Summary.tests (CtrfReport.summary report);
           Summary.passed (CtrfReport.summary report);
           Summary.failed (CtrfReport.summary report);
           Summary.skipped (CtrfReport.summary report);
           Summary.pending (CtrfReport.summary report);
           Summary.other (CtrfReport.summary report)].
Proof.
  eexists _, _. split; [reflexivity|].
  apply (testng_numbers_not_NaN (λ _, None) toLowerCase_ascii
           (testng_document (Some [("total", "many")])
              [suite_S [NObj (Some [("name", "m")]) None []]])).
  reflexivity.
Defined.

(** ** JUnit: which documents convert *)

(** X12. The JUnit conversion resolves exactly when the root of the
    document is [testsuites] with [testsuite] children that all carry
    attributes and whose test cases, at every nesting depth, all carry
    attributes, and both [ensureDir], on the directory of the output
    path, and [outputJson], of the report at the output path, resolve;
    one test case without attributes anywhere makes the whole
    conversion reject. *)
Theorem junit_conversion_resolves_iff (path_resolve path_dirname : string → string)
    (ensureDir : string → option exn)
    (outputJson : ∀ T : Type, string → CtrfReport.t T → option exn)
    (result : document) (outputPath toolName : option string)
    (envProps : option (list string)) :
  let path := path_resolve (str_or outputPath "ctrf/ctrf-report.json") in
  (JUnit.convertJUnitToCTRF path_resolve path_dirname ensureDir outputJson
     (Parsed result) outputPath toolName envProps).2 = Resolved tt
  ↔ junit_well_formed result = true
    ∧ ensureDir (path_dirname path) = None
    ∧ ∃ report,
        junit_report (Parsed result) toolName envProps = Resolved report
        ∧ outputJson _ path report = None.
Proof.
  simpl. unfold JUnit.convertJUnitToCTRF, junit_report.
  destruct (JUnit.parseJUnitReport (Parsed result)) as [tcs|e] eqn:Hp; simpl.
  - apply junit_resolved_iff in Hp as [Hwf _].
    destruct (ensureDir _) as [e1|]; simpl.
    { split; [done|]. by intros (_ & ? & _). }
    destruct (outputJson _ _ _) as [e2|] eqn:Hw; simpl.
    { split; [done|]. intros (_ & _ & report & [= <-] & Hw').
      rewrite Hw in Hw'. discriminate. }
    split; [|done]. intros _. split; [done|]. split; [done|]. by eexists.
  - split; [done|]. intros (H & _).
    assert (JUnit.parseJUnitReport (Parsed result)
            = Resolved (map (λ st, testCase_of st.1 st.2) (report_testcases result)))
      as H' by by apply junit_resolved_iff.
    rewrite Hp in H'. discriminate.
Qed.

Lemma junit_conversion_resolves_iff_witness :
  (JUnit.convertJUnitToCTRF id id mkdir_fine write_fine
     (Parsed nested_document) None None None).2 = Resolved tt
  ∧ ¬ (JUnit.convertJUnitToCTRF id id mkdir_read_only write_fine
         (Parsed nested_document) None None None).2 = Resolved tt.
Proof.
  split.
  - apply (junit_conversion_resolves_iff id id mkdir_fine write_fine
             nested_document None None None).
    split; [reflexivity|]. split; [reflexivity|]. by eexists.
  - intros H.
    apply (junit_conversion_resolves_iff id id mkdir_read_only write_fine
             nested_document None None None) in H.
    destruct H as (_ & H & _). discriminate H.
Defined.

(** X13. A document whose root element is not [testsuites], such as a
    report with a single [testsuite] as its root, is rejected by the
    JUnit conversion with the engine's TypeError for reading
    [testsuite] of [undefined], and nothing is written; so is a
    [testsuites] root without any [testsuite] child, for reading
    [forEach]. *)
Theorem junit_foreign_root_rejects (path_resolve path_dirname : string → string)
    (ensureDir : string → option exn)
    (outputJson : ∀ T : Type, string → CtrfReport.t T → option exn)
    (root : string) (n : node) (outputPath toolName : option string)
    (envProps : option (list string)) :
  (root ≠ "testsuites" →
   JUnit.convertJUnitToCTRF path_resolve path_dirname ensureDir outputJson
     (Parsed (Some (root, n)))
     outputPath toolName envProps
   = ([], Rejected (TypeError
        "Cannot read properties of undefined (reading 'testsuite')")))
  ∧ (node_child "testsuite" n = None →
     JUnit.convertJUnitToCTRF path_resolve path_dirname ensureDir outputJson
       (Parsed (Some ("testsuites", n))) outputPath toolName envProps
     = ([], Rejected (TypeError
          "Cannot read properties of undefined (reading 'forEach')"))).
Proof.
  unfold JUnit.convertJUnitToCTRF, JUnit.parseJUnitReport, JUnit.extract. split.
  - intros H. apply String.eqb_neq in H. by rewrite H.
  - intros H. simpl. by rewrite H.
Qed.

Lemma junit_foreign_root_rejects_witness :
  JUnit.convertJUnitToCTRF id id mkdir_fine write_fine
    (Parsed (Some ("testsuite",
                   NObj (Some [("name", "S")]) None
                        [("testcase", [testcase_t "0.1" []])])))
    None None None
  = ([], Rejected (TypeError
       "Cannot read properties of undefined (reading 'testsuite')")).
Proof.
  apply (junit_foreign_root_rejects id id mkdir_fine write_fine "testsuite"
           (NObj (Some [("name", "S")]) None
                 [("testcase", [testcase_t "0.1" []])]) None None None).
  discriminate.
Defined.

(** ** JUnit: the output tests *)

(** X14. In the report of a JUnit document each test case is [failed]
    exactly when its failure or error element yields a non-empty text;
    otherwise it is [skipped] when it has a [skipped] child, whatever
    that child holds, and [passed] when it has none. *)
Theorem junit_status_rule (result : document)
    (testCases : list JUnit.JUnitTestCase.t) (toolName : option string)
    (envProps : gmap string (option string)) :
  JUnit.parseJUnitReport (Parsed result) = Resolved testCases →
  map CtrfTest.status
      (CtrfReport.tests (JUnit.createCTRFReport testCases toolName envProps))
  = map (λ st, junit_status st.2) (report_testcases result).
Proof.
  intros H. apply junit_resolved_iff in H as [_ ->]. simpl.
  rewrite !map_map. apply map_ext. intros st. apply junit_status_by_text.
Qed.

Lemma junit_status_rule_witness :
  ∃ testCases,
    JUnit.parseJUnitReport
      (Parsed (junit_document
                 [testcase_with [("skipped", [NStr ""])];
                  testcase_with [("skipped", [NStr "later"]); ("error", [NStr "boom"])];
                  testcase_with []]))
    = Resolved testCases
    ∧ map CtrfTest.status
          (CtrfReport.tests (JUnit.createCTRFReport testCases None ∅))
      = [State.skipped; State.failed; State.passed].
Proof.
  eexists. split; [reflexivity|].
  apply (junit_status_rule
           (junit_document
              [testcase_with [("skipped", [NStr ""])];
               testcase_with [("skipped", [NStr "later"]); ("error", [NStr "boom"])];
               testcase_with []])).
  reflexivity.
Defined.

Lemma junit_status_cases (testCase : JUnit.JUnitTestCase.t) :
  let status := CtrfTest.status (JUnit.convertToCTRFTest testCase) in
  status = State.passed ∨ status = State.failed ∨ status = State.skipped.
Proof.
  unfold JUnit.convertToCTRFTest; simpl.
  destruct (str_truthy (JUnit.JUnitTestCase.failure testCase)); [by auto|].
  destruct (str_truthy (JUnit.JUnitTestCase.error testCase)); [by auto|].
  destruct (JUnit.JUnitTestCase.skipped testCase); by auto.
Qed.

Lemma tally_partition (l : list (CtrfTest.t string)) :
  Forall (λ t, CtrfTest.status t = State.passed ∨ CtrfTest.status t = State.failed
               ∨ CtrfTest.status t = State.skipped) l →
  (List.length (filter (λ t, CtrfTest.status t = State.passed) l)
   + List.length (filter (λ t, CtrfTest.status t = State.failed) l)
   + List.length (filter (λ t, CtrfTest.status t = State.skipped) l)
   = List.length l)%nat
  ∧ filter (λ t, CtrfTest.status t = State.pending) l = []
  ∧ filter (λ t, CtrfTest.status t = State.other) l = [].
Proof.
  induction 1 as [|t l Ht _ (IH1 & IH2 & IH3)]; [done|].
  rewrite !filter_cons, IH2, IH3.
  destruct Ht as [Ht|[Ht|Ht]]; rewrite Ht; simpl; (split; [lia|done]).
Qed.

(** X15. Whatever the test cases, the summary of a JUnit report adds
    up: its [tests] is the length of the test list and equals
    [passed + failed + skipped]; [pending] and [other] are 0, and so are
    [start] and [stop]. *)
Theorem junit_summary_adds_up (testCases : list JUnit.JUnitTestCase.t)
    (toolName : option string) (envProps : gmap string (option string)) :
  let report := JUnit.createCTRFReport testCases toolName envProps in
  let s := CtrfReport.summary report in
  ∃ p f k : nat,
    Summary.passed s = of_nat p ∧ Summary.failed s = of_nat f
    ∧ Summary.skipped s = of_nat k
    ∧ Summary.tests s = of_nat (p + f + k)
    ∧ (p + f + k)%nat = List.length (CtrfReport.tests report)
    ∧ List.length (CtrfReport.tests report) = List.length testCases
    ∧ Summary.pending s = of_nat 0 ∧ Summary.other s = of_nat 0
    ∧ Summary.start s = 0 ∧ Summary.stop s = 0.
Proof.
  simpl. unfold JUnit.tally.
  destruct (tally_partition (map JUnit.convertToCTRFTest testCases))
    as (Hsum & Hpending & Hother).
  { apply Forall_fmap, Forall_forall. intros tc _. apply junit_status_cases. }
  eexists _, _, _. split; [reflexivity|]. split; [reflexivity|].
  split; [reflexivity|]. rewrite Hsum, Hpending, Hother.
  repeat split. by rewrite length_map.
Qed.

(** X16. [parseTestSuite] leaves the test cases collected so far in
    place and appends one record for each test case of the suite,
    nested suites included, all tagged with the suite name it was
    given: the name of a nested suite is never used. *)
Theorem parseTestSuite_tags (suite : node) (suiteName : option string)
    (testCases testCases' : list JUnit.JUnitTestCase.t) :
  JUnit.parseTestSuite suite suiteName testCases = Ok testCases' →
  ∃ pushed,
    testCases' = testCases ++ pushed
    ∧ List.length pushed = List.length (testcases suite)
    ∧ Forall (λ tc, JUnit.JUnitTestCase.suite tc = suiteName) pushed.
Proof.
  rewrite parseTestSuite_spec.
  destruct (forallb has_attrs (testcases suite)); [|done]. intros [= <-].
  eexists. split; [done|]. split; [by rewrite length_map|].
  apply Forall_fmap, Forall_forall. by intros tc _.
Qed.

Lemma parseTestSuite_tags_witness :
  ∃ pushed,
    [testCase_of (Some "Suite A") (testcase_t "1.234" []);
     testCase_of (Some "Suite A") (testcase_t "0" []);
     testCase_of (Some "Suite A") (testcase_t "0.5" [("failure", [NStr "boom"])])]
    = [] ++ pushed
    ∧ List.length pushed = 3%nat
    ∧ Forall (λ tc, JUnit.JUnitTestCase.suite tc = Some "Suite A") pushed.
Proof.
  apply (parseTestSuite_tags
           (NObj (Some [("name", "Suite A")]) None
              [("testcase", [testcase_t "1.234" []]);
               ("testsuite",
                [NObj (Some [("name", "Inner")]) None
                   [("testcase",
                     [testcase_t "0" [];
                      testcase_t "0.5" [("failure", [NStr "boom"])]])]])])
           (Some "Suite A") []).
  reflexivity.
Defined.

(** X17. A failure or error element given as plain text and one whose
    text sits beside attributes yield the same extracted text; for a
    [failure] element the output test is then [failed] with that text
    as its message and as its trace. *)
Theorem failure_text_shapes (k : string) (testCase x : node) (s : string)
    (suiteName : option string) :
  first_child k testCase = Some x →
  (x = NStr s ∨ ∃ a ch, x = NObj a (Some s) ch) → s ≠ "" →
  JUnit.element_text k testCase = Some s
  ∧ (k = "failure" →
     let out := JUnit.convertToCTRFTest (testCase_of suiteName testCase) in
     CtrfTest.status out = State.failed
     ∧ CtrfTest.message out = Some s ∧ CtrfTest.trace out = Some s).
Proof.
  intros Hx Hshape Hs.
  assert (JUnit.element_text k testCase = Some s) as Ht.
  { unfold JUnit.element_text. rewrite Hx.
    destruct Hshape as [->|(a & ch & ->)]; simpl; [|done].
    apply String.eqb_neq in Hs. by rewrite Hs. }
  split; [done|]. intros ->.
  assert (str_truthy (Some s) = true) as Hts.
  { simpl. apply String.eqb_neq in Hs. by rewrite Hs. }
  unfold JUnit.convertToCTRFTest, JUnit.or_else; simpl.
  by rewrite Ht, !Hts.
Qed.

Lemma failure_text_shapes_witness :
  JUnit.element_text "failure"
    (testcase_with [("failure", [NObj (Some [("type", "E")]) (Some "boom") []])])
  = Some "boom"
  ∧ ("failure" = "failure" →
     let out :=
       JUnit.convertToCTRFTest
         (testCase_of (Some "S")
            (testcase_with
               [("failure", [NObj (Some [("type", "E")]) (Some "boom") []])])) in
     CtrfTest.status out = State.failed
     ∧ CtrfTest.message out = Some "boom" ∧ CtrfTest.trace out = Some "boom").
Proof.
  apply (failure_text_shapes "failure"
           (testcase_with [("failure", [NObj (Some [("type", "E")]) (Some "boom") []])])
           (NObj (Some [("type", "E")]) (Some "boom") []) "boom" (Some "S")).
  - reflexivity.
  - right. by eexists _, _.
  - discriminate.
Defined.

Lemma to_double_not_NaN (q : Q) : to_double q ≠ NaN.
Proof.
  unfold to_double. destruct (Qnum q =? 0); [done|]. cbv zeta.
  by destruct (_ && _).
Qed.

(** X18. The duration of a JUnit output test is [NaN] exactly when
    [parseFloat] finds no number at the start of the time attribute;
    in particular when the test case has no time attribute. *)
Theorem junit_duration_NaN_iff (testCase : JUnit.JUnitTestCase.t) :
  (CtrfTest.duration (JUnit.convertToCTRFTest testCase) = NaN
   ↔ parseFloat (JUnit.JUnitTestCase.time testCase) = NaN)
  ∧ (JUnit.JUnitTestCase.time testCase = None →
     CtrfTest.duration (JUnit.convertToCTRFTest testCase) = NaN).
Proof.
  unfold JUnit.convertToCTRFTest; simpl. split.
  - destruct (parseFloat (JUnit.JUnitTestCase.time testCase)) as [|s|x]; simpl.
    + done.
    + split; discriminate.
    + pose proof (to_double_not_NaN (x * 1000)) as H.
      destruct (to_double (x * 1000)); simpl; split; done.
  - by intros ->.
Qed.

Lemma junit_duration_NaN_iff_witness :
  CtrfTest.duration
    (JUnit.convertToCTRFTest
       (testCase_of (Some "S") (NObj (Some [("name", "t")]) None [])))
  = NaN.
Proof.
  apply (junit_duration_NaN_iff
           (testCase_of (Some "S") (NObj (Some [("name", "t")]) None []))).
  reflexivity.
Defined.

Lemma envPropsObj_nonempty (p : string) (props : list string) :
  envPropsObj (Some (p :: props)) ≠ ∅.
Proof.
  intros H.
  assert (is_Some (envPropsObj (Some (p :: props)) !! before_char "=" p)) as [v Hv].
  { unfold envPropsObj. rewrite fromEntries_lookup.
    apply last_value_is_Some. exists (split "=" p). split.
    - apply list_elem_of_fmap. exists p. split; [done|]. by left.
    - apply key_of_property. }
  rewrite H, lookup_empty in Hv. discriminate.
Qed.

(** X19. A JUnit report has an environment exactly when at least one
    property string was given; a TestNG report always has one, empty
    when none was given. *)
Theorem environment_presence (props : option (list string))
    (junitCases : list JUnit.JUnitTestCase.t)
    (testngCases : list TestNG.TestNGTestCase.t)
    (results : TestNG.TestNGResults.t) (toolName : option string) :
  CtrfReport.environment
    (JUnit.createCTRFReport junitCases toolName (envPropsObj props))
  = match props with
    | Some (_ :: _) => Some (envPropsObj props)
    | Some [] | None => None
    end
  ∧ CtrfReport.environment
      (TestNG.createCTRFReport testngCases results toolName (envPropsObj props))
    = Some (envPropsObj props).
Proof.
  split; [|done]. simpl.
  destruct props as [[|p props]|]; [done| |done].
  rewrite bool_decide_eq_false_2; [done|]. apply envPropsObj_nonempty.
Qed.

(** ** TestNG: names, statuses and counts *)





(** X22. In the report of an accepted TestNG document each count of
    the summary is the integer [parseInt] reads from the root
    attribute of its name, 0 when that attribute is missing or does not
    start with a number; [other] is read from [ignored], [pending] is
    0; the counts do not depend on the tests. *)
Theorem testng_summary_counts (Date_getTime : string → option Z)
    (toLowerCase : string → string)
    (result : document) (testCases anyCases : list TestNG.TestNGTestCase.t)
    (results : TestNG.TestNGResults.t) (toolName : option string)
    (envProps : gmap string (option string)) :
  TestNG.parseTestNGReport Date_getTime toLowerCase (Parsed result)
  = Resolved (testCases, results) →
  ∃ root a,
    result = Some ("testng-results", root) ∧ node_attrs root = Some a
    ∧ CtrfReport.summary
        (TestNG.createCTRFReport anyCases results toolName envProps)
      = Summary.mk (count_of "total" a) (count_of "passed" a) (count_of "failed" a)
          (Num 0) (count_of "skipped" a) (count_of "ignored" a)
          (TestNG.TestNGResults.startTime results)
          (TestNG.TestNGResults.endTime results)
    ∧ ∀ k, parseInt (assoc k a) = NaN → count_of k a = Num 0.
Proof.
  intros H.
  apply testng_resolved_inv in H as (root & suite & -> & _ & _ & Hr & _).
  unfold TestNG.parseResults in Hr.
  destruct (node_attrs root) as [a|] eqn:Ha; [|done]. injection Hr as <-.
  exists root, a. split; [done|]. split; [done|]. split; [done|].
  intros k Hk. unfold count_of. by rewrite Hk.
Qed.

Lemma testng_summary_counts_witness :
  ∃ root a,
    testng_document (Some [("total", "7"); ("passed", "x")]) [suite_S []]
    = Some ("testng-results", root) ∧ node_attrs root = Some a
    ∧ CtrfReport.summary
        (TestNG.createCTRFReport []
           (TestNG.TestNGResults.mk (Num 7) (Num 0) (Num 0) (Num 0) (Num 0) 0 0 "S")
           None ∅)
      = Summary.mk (count_of "total" a) (count_of "passed" a) (count_of "failed" a)
          (Num 0) (count_of "skipped" a) (count_of "ignored" a) 0 0
    ∧ ∀ k, parseInt (assoc k a) = NaN → count_of k a = Num 0.
Proof.
  apply (testng_summary_counts (λ _, None) toLowerCase_ascii
           (testng_document (Some [("total", "7"); ("passed", "x")]) [suite_S []])
           []).
  reflexivity.
Defined.

(** ** JUnit: names and order *)

(** X23. Each output test of a JUnit report is named by the name of
    the top-level suite its test case lies in, a colon, and the name
    of the test case; a missing name prints as [undefined]. *)
Theorem junit_names (result : document)
    (testCases : list JUnit.JUnitTestCase.t) (toolName : option string)
    (envProps : gmap string (option string)) :
  JUnit.parseJUnitReport (Parsed result) = Resolved testCases →
  map CtrfTest.name
      (CtrfReport.tests (JUnit.createCTRFReport testCases toolName envProps))
  = map junit_name (report_testcases result).
Proof.
  intros H. apply junit_resolved_iff in H as [_ ->]. simpl.
  rewrite !map_map. by apply map_ext.
Qed.

Lemma junit_names_witness :
  ∃ testCases,
    JUnit.parseJUnitReport (Parsed nested_document) = Resolved testCases
    ∧ map CtrfTest.name
          (CtrfReport.tests (JUnit.createCTRFReport testCases None ∅))
      = ["Suite A: t"; "Suite A: t"; "Suite A: t"].
Proof.
  eexists. split; [reflexivity|].
  apply (junit_names nested_document). reflexivity.
Defined.

(** X24. [parseTestSuite] collects the test cases of a suite before
    those of its nested suites, wherever the nested suites stand in the
    document, and the nested suites one after the other. *)
Theorem own_test_cases_first (a : option attrbag) (c : option string)
    (children : list (string * list node)) (suiteName : option string)
    (testCases testCases' : list JUnit.JUnitTestCase.t) :
  JUnit.parseTestSuite (NObj a c children) suiteName testCases = Ok testCases' →
  testCases'
  = testCases
    ++ map (testCase_of suiteName) (default [] (assoc "testcase" children))
    ++ flat_map (λ nested, map (testCase_of suiteName) (testcases nested))
                (default [] (assoc "testsuite" children)).
Proof.
  rewrite parseTestSuite_spec, testcases_unfold.
  destruct (forallb has_attrs _); [|done]. intros [= <-].
  rewrite map_app. do 2 f_equal.
  induction (default [] (assoc "testsuite" children)) as [|n l IH]; simpl; [done|].
  by rewrite map_app, IH.
Qed.

Lemma own_test_cases_first_witness :
  [testCase_of (Some "S") (testcase_t "2" []);
   testCase_of (Some "S") (testcase_t "1" [])]
  = []
    ++ map (testCase_of (Some "S"))
           (default [] (assoc "testcase"
              [("testsuite", [NObj None None [("testcase", [testcase_t "1" []])]]);
               ("testcase", [testcase_t "2" []])]))
    ++ flat_map (λ nested, map (testCase_of (Some "S")) (testcases nested))
         (default [] (assoc "testsuite"
            [("testsuite", [NObj None None [("testcase", [testcase_t "1" []])]]);
             ("testcase", [testcase_t "2" []])])).
Proof.
  apply (own_test_cases_first (Some [("name", "S")]) None
           [("testsuite", [NObj None None [("testcase", [testcase_t "1" []])]]);
            ("testcase", [testcase_t "2" []])] (Some "S") []).
  reflexivity.
Defined.
